(** * Brave Search agent: pagination, fetchers, tool surface and retry loop

    A shallow embedding of
    [iterations/v3-mcp-support/brave_search_agent/{agent_tools,agent,main}.py].

    Python values coming from [response.json()] are modelled by [json];
    dictionaries are finite maps ([gmap string json]).  Code that can raise
    runs in an exception monad; code that talks to the network or to the
    agent runtime additionally threads the list of events it has caused. *)

From stdpp Require Import gmap strings list fin_maps pretty.

Set Warnings "-register-all".
Open Scope Z_scope.

(** ** Python values *)

Inductive json :=
| JNull
| JBool (b : bool)
| JNum (n : Z)
| JStr (s : string)
| JArr (xs : list json)
| JObj (m : gmap string json).

(** Exceptions: the subclasses of [Exception] the code can meet.  The texts
    carried by interpreter-raised errors are indicative only. *)
Inductive exn :=
| TypeError (msg : string)
| KeyError (key : string)
| AttributeError (msg : string)
| RequestError (msg : string)      (* httpx.RequestError and subclasses *)
| JSONDecodeError (msg : string)
| RuntimeFault (msg : string).     (* any other Exception *)

(** [str(e)] *)
Definition exn_str (e : exn) : string :=
  match e with
  | TypeError msg | AttributeError msg | RequestError msg
  | JSONDecodeError msg | RuntimeFault msg => msg
  | KeyError key => "'" +:+ key +:+ "'"
  end.

Inductive result (A : Type) :=
| Ok (a : A)
| Raise (e : exn).
Arguments Ok {A} a.
Arguments Raise {A} e.

(** ** The Python operators the code applies to such values *)

Module Py.

Definition type_name (v : json) : string :=
  match v with
  | JNull => "NoneType" | JBool _ => "bool" | JNum _ => "int"
  | JStr _ => "str" | JArr _ => "list" | JObj _ => "dict"
  end.

(** [sub in s] on two strings *)
Fixpoint substring_of (sub s : string) : bool :=
  String.prefix sub s ||
  match s with
  | EmptyString => false
  | String _ s' => substring_of sub s'
  end.

Definition is_str (key : string) (v : json) : bool :=
  match v with JStr s => String.eqb s key | _ => false end.

(** [key in container], for a string [key] *)
Definition contains (container : json) (key : string) : result bool :=
  match container with
  | JObj m => Ok (match m !! key with Some _ => true | None => false end)
  | JArr xs => Ok (existsb (is_str key) xs)
  | JStr s => Ok (substring_of key s)
  | _ => Raise (TypeError ("argument of type '" +:+ type_name container
                           +:+ "' is not iterable"))
  end.

(** [container[key]], for a string [key] *)
Definition getitem (container : json) (key : string) : result json :=
  match container with
  | JObj m => match m !! key with
              | Some v => Ok v
              | None => Raise (KeyError key)
              end
  | JArr _ => Raise (TypeError "list indices must be integers or slices, not str")
  | JStr _ => Raise (TypeError "string indices must be integers, not 'str'")
  | _ => Raise (TypeError ("'" +:+ type_name container
                           +:+ "' object is not subscriptable"))
  end.

(** [container[key] = value], returning the updated container *)
Definition setitem (container : json) (key : string) (value : json)
  : result json :=
  match container with
  | JObj m => Ok (JObj (<[key := value]> m))
  | JArr _ => Raise (TypeError "list indices must be integers or slices, not str")
  | _ => Raise (TypeError ("'" +:+ type_name container
                           +:+ "' object does not support item assignment"))
  end.

(** [container.get(key, default)] *)
Definition get (container : json) (key : string) (default : json)
  : result json :=
  match container with
  | JObj m => Ok (match m !! key with Some v => v | None => default end)
  | _ => Raise (AttributeError ("'" +:+ type_name container
                                +:+ "' object has no attribute 'get'"))
  end.

(** [container.items()] *)
Definition items (container : json) : result (list (string * json)) :=
  match container with
  | JObj m => Ok (map_to_list m)
  | _ => Raise (AttributeError ("'" +:+ type_name container
                                +:+ "' object has no attribute 'items'"))
  end.

(** truth value, as tested by [not v] and [if v] *)
Definition truthy (v : json) : bool :=
  match v with
  | JNull => false
  | JBool b => b
  | JNum n => negb (n =? 0)
  | JStr s => negb (String.eqb s "")
  | JArr xs => match xs with [] => false | _ => true end
  | JObj m => negb (bool_decide (m = ∅))
  end.

(** the elements [iter(v)] yields *)
Definition iterate (v : json) : result (list json) :=
  match v with
  | JArr xs => Ok xs
  | JStr s => Ok ((λ a, JStr (String a EmptyString)) <$> String.list_ascii_of_string s)
  | JObj m => Ok ((λ kv, JStr kv.1) <$> map_to_list m)
  | _ => Raise (TypeError ("'" +:+ type_name v +:+ "' object is not iterable"))
  end.

(** [target.extend(source)], returning the updated target *)
Definition extend (target source : json) : result json :=
  match target with
  | JArr xs => match iterate source with
               | Ok ys => Ok (JArr (xs ++ ys))
               | Raise e => Raise e
               end
  | _ => Raise (AttributeError ("'" +:+ type_name target
                                +:+ "' object has no attribute 'extend'"))
  end.

(** [len(v)] *)
Definition len (v : json) : result Z :=
  match v with
  | JArr xs => Ok (Z.of_nat (length xs))
  | JStr s => Ok (Z.of_nat (String.length s))
  | JObj m => Ok (Z.of_nat (size m))
  | _ => Raise (TypeError ("object of type '" +:+ type_name v
                           +:+ "' has no len()"))
  end.

(** [xs[:n]] on a list: a negative [n] counts from the end *)
Definition slice_to {A} (xs : list A) (n : Z) : list A :=
  if 0 <=? n then take (Z.to_nat n) xs
  else take (length xs - Z.to_nat (- n))%nat xs.

(** [v[:n]] *)
Definition slice (v : json) (n : Z) : result json :=
  match v with
  | JArr xs => Ok (JArr (slice_to xs n))
  | JStr s => Ok (JStr (String.string_of_list_ascii
                          (slice_to (String.list_ascii_of_string s) n)))
  | _ => Raise (TypeError ("'" +:+ type_name v
                           +:+ "' object is not subscriptable"))
  end.

(** [range(n)] *)
Definition range (n : Z) : list Z := Z.of_nat <$> seq 0 (Z.to_nat n).

(** [raise v] where [v] may be [None] *)
Definition raise_value (v : option exn) : exn :=
  match v with
  | Some e => e
  | None => TypeError "exceptions must derive from BaseException"
  end.

End Py.

(** ** State and exceptions *)

(** A computation over a state [S] that returns or raises; the state
    survives a raise, as assignments made inside a [try] block do. *)
Definition M (S A : Type) : Type := S → result A * S.

Definition ret {S A} (a : A) : M S A := λ s, (Ok a, s).
Definition raise {S A} (e : exn) : M S A := λ s, (Raise e, s).
Definition bind {S A B} (m : M S A) (k : A → M S B) : M S B :=
  λ s, match m s with
       | (Ok a, s') => k a s'
       | (Raise e, s') => (Raise e, s')
       end.
Definition lift {S A} (r : result A) : M S A := λ s, (r, s).
Definition try_except {S A} (body : M S A) (handler : exn → M S A) : M S A :=
  λ s, match body s with
       | (Ok a, s') => (Ok a, s')
       | (Raise e, s') => handler e s'
       end.

Declare Scope py_scope.
Delimit Scope py_scope with py.
Notation "'let*' x ':=' m 'in' k" := (bind m (λ x, k))
  (at level 10, x pattern, m at level 100, k at level 200) : py_scope.
Open Scope py_scope.

(** ** The outside world *)

Record request := {
  req_url : string;
  req_headers : list (string * string);
  req_params : list (string * json)
}.

(** What [client.get] can produce: a response, whose [.json()] parses or
    raises, or an exception. *)
Record response := {
  status_code : Z;
  text : string;
  body_json : result json
}.

Inductive http_outcome :=
| Responded (r : response)
| Faulted (e : exn).

Inductive event :=
| EvGet (r : request)
| EvAgentRun (user_input : string) (history : list json)
| EvSleep (seconds : Z).

(** Code with effects appends to the log of events. *)
Definition IO (A : Type) : Type := M (list event) A.

Definition emit (ev : event) : IO unit := λ log, (Ok tt, log ++ [ev]).

(** ** agent_tools.py *)

Definition BRAVE_SEARCH_API_URL : string :=
  "https://api.search.brave.com/res/v1/web/search".

(** [{"error": err, "web": {"results": []}}] *)
Definition error_dict (err : json) : json :=
  JObj (<["error" := err]> (<["web" := JObj (<["results" := JArr []]> ∅)]> ∅)).
Definition error_envelope (error_msg : string) : json :=
  error_dict (JStr error_msg).

Section Fetchers.

(** The network as the code sees it: what a GET of a request yields. *)
Variable net : request → http_outcome.

(** [await client.get(url, headers=..., params=...)] *)
Definition client_get (url : string) (headers : list (string * string))
    (params : list (string * json)) : IO response :=
  let req := {| req_url := url; req_headers := headers;
                req_params := params |} in
  let* _ := emit (EvGet req) in
  match net req with
  | Responded r => ret r
  | Faulted e => raise e
  end.

Definition search_request (api_key query : string) (count offset : Z)
    (country search_lang ui_lang safesearch : string) : request :=
  {| req_url := BRAVE_SEARCH_API_URL;
     req_headers := [("Accept", "application/json");
                     ("Accept-Encoding", "gzip");
                     ("X-Subscription-Token", api_key)];
     req_params := [("q", JStr query); ("count", JNum count);
                    ("offset", JNum offset); ("country", JStr country);
                    ("search_lang", JStr search_lang);
                    ("ui_lang", JStr ui_lang);
                    ("safesearch", JStr safesearch)] |}.

Definition fetch_search_results (api_key query : string) (count offset : Z)
    (country search_lang ui_lang safesearch : string) : IO json :=
  try_except
    (let headers := [("Accept", "application/json");
                     ("Accept-Encoding", "gzip");
                     ("X-Subscription-Token", api_key)] in
     let params := [("q", JStr query); ("count", JNum count);
                    ("offset", JNum offset); ("country", JStr country);
                    ("search_lang", JStr search_lang);
                    ("ui_lang", JStr ui_lang);
                    ("safesearch", JStr safesearch)] in
     let* response := client_get BRAVE_SEARCH_API_URL headers params in
     if status_code response =? 200 then
       lift (body_json response)
     else
       let error_msg := "Brave API error: " +:+ pretty (status_code response)
                        +:+ " - " +:+ text response in
       ret (error_envelope error_msg))
    (λ e, match e with
          | RequestError _ =>
              let error_msg := "Request error: " +:+ exn_str e in
              ret (error_envelope error_msg)
          | _ =>
              let error_msg := "Unexpected error: " +:+ exn_str e in
              ret (error_envelope error_msg)
          end).

Definition page_request (url : string) : request :=
  {| req_url := url;
     req_headers :=
       [("Accept", "text/html,application/xhtml+xml");
        ("User-Agent", "Mozilla/5.0 (Windows NT 10.0; Win64; x64) AppleWebKit/537.36 (KHTML, like Gecko) Chrome/91.0.4472.124 Safari/537.36")];
     req_params := [] |}.

Definition fetch_page_content (api_key url : string) : IO string :=
  try_except
    (let headers :=
       [("Accept", "text/html,application/xhtml+xml");
        ("User-Agent", "Mozilla/5.0 (Windows NT 10.0; Win64; x64) AppleWebKit/537.36 (KHTML, like Gecko) Chrome/91.0.4472.124 Safari/537.36")] in
     let* response := client_get url headers [] in
     if status_code response =? 200 then
       ret (text response)
     else
       let error_msg := "Error fetching page: "
                        +:+ pretty (status_code response) +:+ " - "
                        +:+ String.substring 0 100 (text response) in
       ret "")
    (λ e, match e with
          | RequestError _ => ret ""
          | _ => ret ""
          end).

(** *** search_with_pagination *)

(** The function's frame: the event log and the local [all_results],
    which the loop body updates in place. *)
Record frame := { events : list event; all_results : json }.

Definition io {A} (m : IO A) : M frame A :=
  λ f, let '(r, log) := m (events f) in
       (r, {| events := log; all_results := all_results f |}).
Definition read_all_results : M frame json :=
  λ f, (Ok (all_results f), f).
Definition write_all_results (v : json) : M frame unit :=
  λ f, (Ok tt, {| events := events f; all_results := v |}).

(** How one pass through the loop body ends. *)
Inductive control :=
| Next
| Break
| Return (v : json).

(** [all_results["web"]["results"].extend(source)] *)
Definition extend_web_results (source : json) : M frame unit :=
  let* all := read_all_results in
  let* web := lift (Py.getitem all "web") in
  let* results := lift (Py.getitem web "results") in
  let* results := lift (Py.extend results source) in
  let* web := lift (Py.setitem web "results" results) in
  let* all := lift (Py.setitem all "web" web) in
  write_all_results all.

(** [all_results[key] = value] *)
Definition set_top (key : string) (value : json) : M frame unit :=
  let* all := read_all_results in
  let* all := lift (Py.setitem all key value) in
  write_all_results all.

(** [all_results["web"][key] = value] *)
Definition set_web (key : string) (value : json) : M frame unit :=
  let* all := read_all_results in
  let* web := lift (Py.getitem all "web") in
  let* web := lift (Py.setitem web key value) in
  let* all := lift (Py.setitem all "web" web) in
  write_all_results all.

(** [len(all_results["web"]["results"])] *)
Definition len_web_results : M frame Z :=
  let* all := read_all_results in
  let* web := lift (Py.getitem all "web") in
  let* results := lift (Py.getitem web "results") in
  lift (Py.len results).

(** [all_results["web"]["results"] = all_results["web"]["results"][:n]] *)
Definition truncate_web_results (n : Z) : M frame unit :=
  let* all := read_all_results in
  let* web := lift (Py.getitem all "web") in
  let* results := lift (Py.getitem web "results") in
  let* results := lift (Py.slice results n) in
  set_web "results" results.

(** [for key, value in kvs: if key != skip: assign(key, value)] *)
Fixpoint copy_items (skip : string) (assign : string → json → M frame unit)
    (kvs : list (string * json)) : M frame unit :=
  match kvs with
  | [] => ret tt
  | (key, value) :: kvs =>
      let* _ := if negb (String.eqb key skip) then assign key value
                else ret tt in
      copy_items skip assign kvs
  end.

Section Pagination.

Variables (api_key query : string) (max_results : Z).
Variables (country search_lang ui_lang safesearch : string).

Definition results_per_page : Z := 10.
Definition num_pages : Z :=
  (max_results + results_per_page - 1) `div` results_per_page.

(** The body of the inner [try]. *)
Definition try_page (page : Z) : M frame control :=
  let* page_results :=
    io (fetch_search_results api_key query results_per_page page
          country search_lang ui_lang safesearch) in
  let* has_error := lift (Py.contains page_results "error") in
  if has_error then
    (* the log line formats page_results['error'] *)
    let* _ := lift (Py.getitem page_results "error") in
    if page =? 0 then ret (Return page_results) else ret Break
  else
    let* has_web := lift (Py.contains page_results "web") in
    let* has_results :=
      if has_web then
        let* web := lift (Py.getitem page_results "web") in
        lift (Py.contains web "results")
      else ret false in
    let* _ :=
      if has_results then
        let* web := lift (Py.getitem page_results "web") in
        let* results := lift (Py.getitem web "results") in
        let* _ := extend_web_results results in
        if page =? 0 then
          let* kvs := lift (Py.items page_results) in
          let* _ := copy_items "web" set_top kvs in
          let* web := lift (Py.getitem page_results "web") in
          let* kvs := lift (Py.items web) in
          copy_items "results" set_web kvs
        else ret tt
      else ret tt in
    let* n := len_web_results in
    if max_results <=? n then
      let* _ := truncate_web_results max_results in
      ret Break
    else ret Next.

(** The loop body: the inner [try] with its [except Exception]. *)
Definition loop_body (page : Z) : M frame control :=
  try_except (try_page page)
    (λ e, if page =? 0 then
            ret (Return (error_envelope
                           ("Error in pagination: " +:+ exn_str e)))
          else ret Break).

(** [for page in pages: ...]; [Some v] when the body returned [v]. *)
Fixpoint for_pages (pages : list Z) : M frame (option json) :=
  match pages with
  | [] => ret None
  | page :: pages =>
      let* c := loop_body page in
      match c with
      | Next => for_pages pages
      | Break => ret None
      | Return v => ret (Some v)
      end
  end.

Definition fresh_all_results : json :=
  JObj (<["web" := JObj (<["results" := JArr []]> ∅)]> ∅).

Definition search_with_pagination : IO json :=
  try_except
    (λ log,
       let '(r, f) :=
         (let* returned := for_pages (Py.range num_pages) in
          match returned with
          | Some v => ret v
          | None => read_all_results
          end) {| events := log; all_results := fresh_all_results |} in
       (r, events f))
    (λ e, ret (error_envelope
                 ("Error in search_with_pagination: " +:+ exn_str e))).

End Pagination.

End Fetchers.

(** ** agent.py *)

Record BraveSearchDeps := { brave_api_key : string }.
Record RunContext := { deps : BraveSearchDeps }.

Section Tools.

Variable net : request → http_outcome.
(** [repr] of lists and dictionaries, as the interpreter prints them *)
Variable repr : json → string.

(** What an f-string puts for [{v}] *)
Definition format_value (v : json) : string :=
  match v with
  | JStr s => s
  | JNull => "None"
  | JBool true => "True"
  | JBool false => "False"
  | JNum n => pretty n
  | _ => repr v
  end.

Definition search_web (ctx : RunContext) (query : string) (count : Z)
  : IO json :=
  try_except
    (let brave_api_key := brave_api_key (deps ctx) in
     let* search_results :=
       fetch_search_results net brave_api_key query count 0
         "US" "en" "en-US" "moderate" in
     let* has_error := lift (Py.contains search_results "error") in
     if has_error then
       let* err := lift (Py.getitem search_results "error") in
       ret (error_dict err)
     else ret search_results)
    (λ e, ret (error_envelope (exn_str e))).

Definition get_page_content (ctx : RunContext) (url : string) : IO string :=
  try_except
    (let brave_api_key := brave_api_key (deps ctx) in
     let* content := fetch_page_content net brave_api_key url in
     (* [content] is a str: [in] is the substring test, and the log line
        subscripts the str with 'error' *)
     let* has_error := lift (Py.contains (JStr content) "error") in
     if has_error then
       let* _ := lift (Py.getitem (JStr content) "error") in
       ret ""
     else ret content)
    (λ e, ret "").

(** [for i, result in enumerate(web_results, i): summary += ...] *)
Fixpoint summarize_loop (i : Z) (web_results : list json) (summary : string)
  : IO string :=
  match web_results with
  | [] => ret summary
  | result :: web_results =>
      let* title := lift (Py.get result "title" (JStr "No title")) in
      let* url := lift (Py.get result "url" (JStr "No URL")) in
      let* description :=
        lift (Py.get result "description" (JStr "No description")) in
      let summary := summary +:+ "### " +:+ pretty i +:+ ". "
                     +:+ format_value title +:+ "
" in
      let summary := summary +:+ "**URL**: " +:+ format_value url +:+ "
" in
      let summary := summary +:+ "**Description**: "
                     +:+ format_value description +:+ "

" in
      summarize_loop (i + 1) web_results summary
  end.

Definition summarize_search_results (ctx : RunContext) (results : json)
  : IO string :=
  try_except
    (let* empty :=
       if negb (Py.truthy results) then ret true
       else
         let* web := lift (Py.get results "web" (JObj ∅)) in
         let* web_results := lift (Py.get web "results" JNull) in
         ret (negb (Py.truthy web_results)) in
     if empty then ret "No search results found."
     else
       let* web := lift (Py.getitem results "web") in
       let* web_results := lift (Py.getitem web "results") in
       let summary := "## Search Results

" in
       let* web_results := lift (Py.iterate web_results) in
       summarize_loop 1 web_results summary)
    (λ e, ret "").

End Tools.

(** ** main.py *)

(** What [brave_search_agent.run] returns. *)
Record run_result := { data : string }.

Section Retry.

(** The agent runtime: on its [n]-th invocation (from 0), given the user
    input, the dependencies and the history list, it returns or raises,
    and leaves the history list in a possibly changed state. *)
Variable runtime :
  nat → string → BraveSearchDeps → list json → result run_result * list json.

(** The frame of [run_agent_with_retry]: the event log and the list object
    bound to [message_history]. *)
Record retry_frame := {
  retry_events : list event;
  message_history : list json
}.

Definition is_run (ev : event) : bool :=
  match ev with EvAgentRun _ _ => true | _ => false end.

(** [await brave_search_agent.run(user_input, deps=deps,
    message_history=message_history)] *)
Definition agent_run (user_input : string) (deps : BraveSearchDeps)
  : M retry_frame run_result :=
  λ f, let n := length (filter (λ ev, is_run ev = true) (retry_events f)) in
       let '(r, history) := runtime n user_input deps (message_history f) in
       (r, {| retry_events := retry_events f
                              ++ [EvAgentRun user_input (message_history f)];
              message_history := history |}).

(** [await asyncio.sleep(seconds)] *)
Definition sleep (seconds : Z) : M retry_frame unit :=
  λ f, (Ok tt, {| retry_events := retry_events f ++ [EvSleep seconds];
                  message_history := message_history f |}).

Definition read_history : M retry_frame (list json) :=
  λ f, (Ok (message_history f), f).

Section Loop.

Variables (user_input : string) (deps : BraveSearchDeps) (max_retries : Z).

(** The [while retries < max_retries] loop followed by
    [raise last_error]; [None] when [fuel] runs out first. *)
Fixpoint retry_loop (fuel : nat) (retries : Z) (last_error : option exn)
  : M retry_frame (option (run_result * list json)) :=
  match fuel with
  | O => ret None
  | S fuel =>
      if retries <? max_retries then
        try_except
          (let* result := agent_run user_input deps in
           let* history := read_history in
           ret (Some (result, history)))
          (λ e,
             let last_error := Some e in
             let retries := retries + 1 in
             let* _ := if retries <? max_retries then sleep 1
                       else ret tt in
             retry_loop fuel retries last_error)
      else raise (Py.raise_value last_error)
  end.

End Loop.

(** Every pass through the loop adds one to [retries], so
    [max_retries] passes and the final test are all the loop can do. *)
Definition run_agent_with_retry (user_input : string)
    (deps : BraveSearchDeps) (message_history : option (list json))
    (max_retries : Z)
  : list event → result (option (run_result * list json)) * retry_frame :=
  λ log,
    let message_history :=
      match message_history with Some h => h | None => [] end in
    retry_loop user_input deps max_retries (S (Z.to_nat max_retries)) 0 None
      {| retry_events := log; message_history := message_history |}.

End Retry.

(** * Properties *)

(** ** Reading an envelope *)

(** The value under [error], when the envelope is a dictionary with one. *)
Definition error_field (env : json) : option json :=
  match env with JObj m => m !! "error" | _ => None end.

(** The dictionary under [web]. *)
Definition web_object (env : json) : option (gmap string json) :=
  match env with
  | JObj m => match m !! "web" with Some (JObj w) => Some w | _ => None end
  | _ => None
  end.

(** The value under [web.results]. *)
Definition web_results_field (env : json) : option json :=
  w ← web_object env; w !! "results".

(** The list under [web.results]. *)
Definition web_results (env : json) : option (list json) :=
  match web_results_field env with Some (JArr xs) => Some xs | _ => None end.

(** A GET that did not answer 200: another status, or an exception. *)
Definition http_failed (o : http_outcome) : Prop :=
  match o with
  | Responded r => status_code r ≠ 200
  | Faulted _ => True
  end.

(** Unfolding the monad until the computation shows. *)
Ltac run_monad :=
  repeat (progress (unfold bind, ret, raise, lift, try_except, emit,
                    client_get; simpl)).

(** Running the monad one step at a time. *)
Lemma bind_run {S A B} (m : M S A) (k : A → M S B) (s : S) :
  bind m k s = match m s with
               | (Ok a, s') => k a s'
               | (Raise e, s') => (Raise e, s')
               end.
Proof. done. Qed.
Lemma lift_run {S A} (r : result A) (s : S) : lift r s = (r, s).
Proof. done. Qed.
Lemma ret_run {S A} (a : A) (s : S) : ret a s = (Ok a, s).
Proof. done. Qed.

Ltac run_step :=
  repeat (progress (rewrite ?bind_run, ?lift_run, ?ret_run); cbv beta iota).

(** ** The fetchers *)

Section FetcherFacts.

Variable net : request → http_outcome.
Variables (api_key query : string) (count offset : Z).
Variables (country search_lang ui_lang safesearch : string).

Local Abbreviation req :=
  (search_request api_key query count offset country search_lang ui_lang
     safesearch).

(** The value [fetch_search_results] hands back does not depend on the
    log, and the call adds exactly its one request to it. *)
Lemma fetch_search_results_run (log : list event) :
  fetch_search_results net api_key query count offset country search_lang
    ui_lang safesearch log
  = ((fetch_search_results net api_key query count offset country
        search_lang ui_lang safesearch []).1,
     log ++ [EvGet req]).
Proof.
  unfold fetch_search_results, search_request; run_monad.
  destruct (net _) as [r|[]]; simpl; try done.
  destruct (status_code r =? 200); simpl; [|done].
  by destruct (body_json r) as [v|[]].
Qed.

Lemma fetch_search_results_never_raises (log : list event) :
  ∃ env, (fetch_search_results net api_key query count offset country
            search_lang ui_lang safesearch log).1 = Ok env.
Proof.
  unfold fetch_search_results, search_request; run_monad.
  destruct (net _) as [r|e]; simpl.
  - destruct (status_code r =? 200); simpl; [|by eexists].
    destruct (body_json r) as [v|e]; simpl; [by eexists|].
    destruct e; by eexists.
  - destruct e; by eexists.
Qed.

(** What comes back from a GET that fails. *)
Lemma fetch_search_results_http_failed (log : list event) :
  http_failed (net req) →
  ∃ env msg,
    fetch_search_results net api_key query count offset country search_lang
      ui_lang safesearch log = (Ok env, log ++ [EvGet req])
    ∧ error_field env = Some (JStr msg)
    ∧ msg ≠ ""
    ∧ web_results env = Some [].
Proof.
  intros Hfail.
  assert (Henv : ∀ msg : string, msg ≠ "" →
    error_field (error_envelope msg) = Some (JStr msg) ∧ msg ≠ ""
    ∧ web_results (error_envelope msg) = Some []).
  { intros msg Hmsg. split; [|split; [done|]].
    - unfold error_field, error_envelope, error_dict.
      by rewrite lookup_insert_eq.
    - unfold web_results, web_results_field, web_object, error_envelope,
        error_dict; simpl.
      rewrite lookup_insert_ne, lookup_insert_eq by done; simpl.
      by rewrite lookup_insert_eq. }
  unfold fetch_search_results, search_request in *; run_monad.
  destruct (net _) as [r|e]; simpl in *.
  - destruct (Z.eqb_spec (status_code r) 200) as [?|_]; [done|]; simpl.
    eexists _, _. split; [done|]. apply Henv. simpl. discriminate.
  - destruct e; simpl; eexists _, _;
      (split; [done|]; apply Henv; simpl; discriminate).
Qed.

(** C8.  When the search endpoint answers with a status other than 200, or
    the GET raises, [fetch_search_results] returns (it does not raise) an
    envelope whose [error] is a non-empty string and whose [web.results]
    is the empty list. *)
Theorem fetch_search_results_failure (log : list event) :
  http_failed (net req) →
  ∃ env msg,
    fetch_search_results net api_key query count offset country search_lang
      ui_lang safesearch log = (Ok env, log ++ [EvGet req])
    ∧ error_field env = Some (JStr msg)
    ∧ msg ≠ ""
    ∧ web_results env = Some [].
Proof. apply fetch_search_results_http_failed. Qed.

End FetcherFacts.

(** ** The tool surface *)

Section ToolFacts.

Variable net : request → http_outcome.
Variable ctx : RunContext.

(** [fetch_page_content] hands back the body of a 200 answer as it is. *)
Lemma fetch_page_content_200 (url : string) (r : response)
    (log : list event) :
  net (page_request url) = Responded r →
  status_code r = 200 →
  fetch_page_content net (brave_api_key (deps ctx)) url log
  = (Ok (text r), log ++ [EvGet (page_request url)]).
Proof.
  intros Hnet Hstatus.
  unfold fetch_page_content, page_request in *; run_monad.
  by rewrite Hnet; simpl; rewrite Hstatus.
Qed.

(** On a 200 answer [get_page_content] tests the body for the substring
    [error]: a body without it is returned as it is, a body with it is
    replaced by the empty string. *)
Lemma get_page_content_200 (url : string) (r : response)
    (log : list event) :
  net (page_request url) = Responded r →
  status_code r = 200 →
  get_page_content net ctx url log
  = (Ok (if Py.substring_of "error" (text r) then "" else text r),
     log ++ [EvGet (page_request url)]).
Proof.
  intros Hnet Hstatus. unfold get_page_content.
  unfold try_except at 1. unfold bind at 1.
  rewrite (fetch_page_content_200 url r log Hnet Hstatus).
  run_monad. by destruct (Py.substring_of "error" (text r)).
Qed.

Variable repr : json → string.

(** C9.  For a dictionary whose [web] entry is missing (the empty
    dictionary is one), or is a dictionary whose [results] entry is missing
    or is the empty list, [summarize_search_results] returns exactly
    "No search results found.". *)
Theorem summarize_search_results_no_results (m : gmap string json) (log : list event) :
  (m !! "web" = None
   ∨ ∃ w, m !! "web" = Some (JObj w)
          ∧ (w !! "results" = None ∨ w !! "results" = Some (JArr []))) →
  summarize_search_results repr ctx (JObj m) log
  = (Ok "No search results found.", log).
Proof.
  intros Hm. unfold summarize_search_results; run_monad.
  destruct (bool_decide (m = ∅)); simpl; [done|].
  destruct Hm as [->|(w & -> & Hw)]; simpl; [done|].
  by destruct Hw as [->| ->].
Qed.

End ToolFacts.

(** ** The retry loop *)

Section RetryFacts.

Variable runtime :
  nat → string → BraveSearchDeps → list json → result run_result * list json.
Variables (user_input : string) (deps : BraveSearchDeps).

Definition runs (log : list event) : nat :=
  length (filter (λ ev, is_run ev = true) log).

Lemma runs_snoc (log : list event) (ev : event) :
  runs (log ++ [ev]) = if is_run ev then S (runs log) else runs log.
Proof.
  unfold runs. rewrite filter_app, length_app.
  destruct ev; simpl; lia.
Qed.

(** One invocation of the runtime. *)
Lemma agent_run_run (log : list event) (history : list json) :
  agent_run runtime user_input deps
    {| retry_events := log; message_history := history |}
  = ((runtime (runs log) user_input deps history).1,
     {| retry_events := log ++ [EvAgentRun user_input history];
        message_history := (runtime (runs log) user_input deps history).2 |}).
Proof.
  unfold agent_run, runs; simpl.
  by destruct (runtime _ _ _ _).
Qed.

(** Fuel: the loop never runs out of the fuel [run_agent_with_retry]
    gives it, whatever the runtime does. *)
Lemma retry_loop_fuel (max_retries : Z) (fuel : nat) (retries : Z)
    (last_error : option exn) (f : retry_frame) :
  (Z.to_nat (max_retries - retries) < fuel)%nat →
  (retry_loop runtime user_input deps max_retries fuel retries last_error
     f).1 ≠ Ok None.
Proof.
  revert retries last_error f.
  induction fuel as [|fuel IH]; intros retries last_error f Hfuel; [lia|].
  simpl. destruct (Z.ltb_spec retries max_retries) as [Hlt|Hge];
    [|by run_monad].
  destruct f as [log history].
  unfold try_except, bind at 1. rewrite agent_run_run.
  destruct (runtime _ _ _ _) as [[res|e] history']; simpl; [done|].
  unfold bind.
  destruct (retries + 1 <? max_retries); simpl; apply IH; lia.
Qed.

Lemma run_agent_with_retry_total (message_history : option (list json))
    (max_retries : Z) (log : list event) :
  (run_agent_with_retry runtime user_input deps message_history max_retries
     log).1 ≠ Ok None.
Proof. unfold run_agent_with_retry. apply retry_loop_fuel. lia. Qed.

(** C7.  With [max_retries = 3], when the first two invocations of the
    runtime raise, the third one decides: if it returns, its result is
    returned together with the history list; if it raises, what it raised
    is raised to the caller.  Either way the runtime has been invoked
    exactly three times, with a sleep of 1 between consecutive
    invocations and none after the last. *)
Theorem run_agent_with_retry_three_attempts
    (message_history : option (list json)) (log : list event)
    (e1 e2 : exn) (h0 h1 h2 h3 : list json) (third : result run_result) :
  h0 = match message_history with Some h => h | None => [] end →
  runtime (runs log) user_input deps h0 = (Raise e1, h1) →
  runtime (S (runs log)) user_input deps h1 = (Raise e2, h2) →
  runtime (S (S (runs log))) user_input deps h2 = (third, h3) →
  run_agent_with_retry runtime user_input deps message_history 3 log
  = (match third with
     | Ok result => Ok (Some (result, h3))
     | Raise e3 => Raise e3
     end,
     {| retry_events :=
          log ++ [EvAgentRun user_input h0; EvSleep 1;
                  EvAgentRun user_input h1; EvSleep 1;
                  EvAgentRun user_input h2];
        message_history := h3 |}).
Proof.
  intros Hh0 H1 H2 H3. unfold run_agent_with_retry. rewrite <- Hh0.
  change (Z.to_nat 3) with 3%nat.
  (* first attempt *)
  simpl retry_loop. unfold try_except at 1, bind at 1.
  rewrite agent_run_run, H1; simpl.
  unfold bind at 1, sleep at 1; simpl.
  (* second attempt *)
  unfold try_except at 1, bind at 1.
  rewrite agent_run_run, !runs_snoc; simpl.
  rewrite H2; simpl.
  unfold bind at 1, sleep at 1; simpl.
  (* third attempt *)
  unfold try_except at 1, bind at 1.
  rewrite agent_run_run, !runs_snoc; simpl.
  rewrite H3; simpl.
  rewrite <- !app_assoc; simpl.
  destruct third as [result|e3]; [done|].
  by run_monad.
Qed.

(** C10.  With [max_retries <= 0] the runtime is not invoked at all and
    the function raises; [last_error] is still [None] at the [raise], so
    what reaches the caller is what [raise None] raises and no fault of
    the agent. *)
Theorem run_agent_with_retry_no_attempt
    (message_history : option (list json)) (max_retries : Z)
    (log : list event) :
  max_retries ≤ 0 →
  run_agent_with_retry runtime user_input deps message_history max_retries
    log
  = (Raise (Py.raise_value None),
     {| retry_events := log;
        message_history :=
          match message_history with Some h => h | None => [] end |}).
Proof.
  intros Hmax. unfold run_agent_with_retry. simpl.
  by destruct (Z.ltb_spec 0 max_retries); [lia|].
Qed.

End RetryFacts.

(** ** The aggregator *)

(** [all_results] always has the shape the function gives it at the start:
    a dictionary whose [web] is a dictionary whose [results] is a list. *)
Definition merged (top web : gmap string json) (results : list json) : json :=
  JObj (<["web" := JObj (<["results" := JArr results]> web)]> top).

Lemma fresh_all_results_merged : fresh_all_results = merged ∅ ∅ [].
Proof. done. Qed.

Lemma web_object_merged (top web : gmap string json) (results : list json) :
  web_object (merged top web results)
  = Some (<["results" := JArr results]> web).
Proof. unfold web_object, merged. by rewrite lookup_insert_eq. Qed.

Lemma web_results_merged (top web : gmap string json) (results : list json) :
  web_results (merged top web results) = Some results.
Proof.
  unfold web_results, web_results_field. rewrite web_object_merged; simpl.
  by rewrite lookup_insert_eq.
Qed.

(** What the two copying loops leave in a dictionary [base] after going
    through the entries [kvs]. *)
Definition copy_into (skip : string) (kvs : list (string * json))
    (base : gmap string json) : gmap string json :=
  foldl (λ acc kv, if negb (String.eqb kv.1 skip) then <[kv.1 := kv.2]> acc
                   else acc) base kvs.

Lemma copy_into_cons (skip k0 : string) (v0 : json)
    (kvs : list (string * json)) (base : gmap string json) :
  copy_into skip ((k0, v0) :: kvs) base
  = copy_into skip kvs (if negb (String.eqb k0 skip) then <[k0 := v0]> base
                        else base).
Proof. done. Qed.

Lemma copy_into_lookup (skip : string) (kvs : list (string * json))
    (base : gmap string json) (k : string) :
  NoDup kvs.*1 →
  copy_into skip kvs base !! k
  = if decide (k = skip) then base !! k
    else match (list_to_map kvs : gmap string json) !! k with
         | Some v => Some v
         | None => base !! k
         end.
Proof.
  revert base. induction kvs as [|[k0 v0] kvs IH]; intros base Hnd.
  { simpl. rewrite lookup_empty. by case_decide. }
  apply NoDup_cons in Hnd as [Hk0 Hnd].
  rewrite copy_into_cons, IH by done.
  change (list_to_map ((k0, v0) :: kvs) : gmap string json)
    with (<[k0 := v0]> (list_to_map kvs : gmap string json)).
  case_decide as Hk.
  - subst k. destruct (String.eqb_spec k0 skip); simpl; [done|].
    by rewrite lookup_insert_ne.
  - destruct (decide (k = k0)) as [->|Hne].
    + rewrite lookup_insert_eq.
      rewrite (not_elem_of_list_to_map_1 _ k0) by done.
      destruct (String.eqb_spec k0 skip); simpl; [done|].
      by rewrite lookup_insert_eq.
    + rewrite (lookup_insert_ne _ k0 k) by done.
      destruct (list_to_map kvs !! k); [done|].
      destruct (String.eqb_spec k0 skip); simpl; [done|].
      by rewrite lookup_insert_ne.
Qed.

(** Copying all entries of a dictionary [m] but [skip] into [base]. *)
Lemma copy_into_map_to_list (skip : string) (m base : gmap string json) :
  copy_into skip (map_to_list m) base = delete skip m ∪ base.
Proof.
  apply map_eq; intros k.
  rewrite copy_into_lookup by apply NoDup_fst_map_to_list.
  rewrite list_to_map_to_list, lookup_union, lookup_delete.
  case_decide as Hk.
  - subst k. rewrite decide_True by done. by destruct (base !! skip).
  - rewrite decide_False by done. by destruct (m !! k), (base !! k).
Qed.

(** *** The updates of [all_results], on a frame of that shape *)

Section FrameFacts.

Variables (log : list event) (top web : gmap string json).
Variable results : list json.

Local Abbreviation frame_of t w rs :=
  {| events := log; all_results := merged t w rs |}.

Lemma extend_web_results_ok (source : json) (ys : list json) :
  Py.iterate source = Ok ys →
  extend_web_results source (frame_of top web results)
  = (Ok tt, frame_of top web (results ++ ys)).
Proof.
  intros Hys. unfold extend_web_results, merged, Py.extend; run_monad.
  rewrite !lookup_insert_eq; simpl. rewrite !lookup_insert_eq; simpl.
  rewrite Hys; simpl. by rewrite !insert_insert_eq.
Qed.

Lemma extend_web_results_raise (source : json) (e : exn) :
  Py.iterate source = Raise e →
  extend_web_results source (frame_of top web results)
  = (Raise e, frame_of top web results).
Proof.
  intros Hys. unfold extend_web_results, merged, Py.extend; run_monad.
  rewrite !lookup_insert_eq; simpl. rewrite !lookup_insert_eq; simpl.
  by rewrite Hys.
Qed.

Lemma set_top_run (key : string) (value : json) :
  key ≠ "web" →
  set_top key value (frame_of top web results)
  = (Ok tt, frame_of (<[key := value]> top) web results).
Proof.
  intros Hkey. unfold set_top, merged; run_monad.
  by rewrite insert_insert_ne.
Qed.

Lemma set_web_run (key : string) (value : json) :
  key ≠ "results" →
  set_web key value (frame_of top web results)
  = (Ok tt, frame_of top (<[key := value]> web) results).
Proof.
  intros Hkey. unfold set_web, merged; run_monad.
  rewrite !lookup_insert_eq; simpl.
  by rewrite insert_insert_eq, (insert_insert_ne _ key).
Qed.

Lemma len_web_results_run :
  len_web_results (frame_of top web results)
  = (Ok (Z.of_nat (length results)), frame_of top web results).
Proof.
  unfold len_web_results, merged; run_monad.
  rewrite !lookup_insert_eq; simpl. by rewrite !lookup_insert_eq.
Qed.

Lemma truncate_web_results_run (n : Z) :
  truncate_web_results n (frame_of top web results)
  = (Ok tt, frame_of top web (Py.slice_to results n)).
Proof.
  unfold truncate_web_results, set_web, merged; run_monad.
  rewrite !lookup_insert_eq; simpl. rewrite !lookup_insert_eq; simpl.
  by rewrite !insert_insert_eq.
Qed.

End FrameFacts.

Arguments merged : simpl never.
Arguments extend_web_results : simpl never.
Arguments set_top : simpl never.
Arguments set_web : simpl never.
Arguments len_web_results : simpl never.
Arguments truncate_web_results : simpl never.

Lemma copy_items_set_top (kvs : list (string * json)) (log : list event)
    (top web : gmap string json) (results : list json) :
  copy_items "web" set_top kvs
    {| events := log; all_results := merged top web results |}
  = (Ok tt, {| events := log;
               all_results := merged (copy_into "web" kvs top) web results |}).
Proof.
  revert top. induction kvs as [|[key value] kvs IH]; intros top; [done|].
  rewrite copy_into_cons. cbn [copy_items]. unfold bind at 1.
  destruct (String.eqb_spec key "web") as [->|Hkey]; cbn [negb].
  - unfold ret at 1. apply IH.
  - rewrite set_top_run by done. apply IH.
Qed.

Lemma copy_items_set_web (kvs : list (string * json)) (log : list event)
    (top web : gmap string json) (results : list json) :
  copy_items "results" set_web kvs
    {| events := log; all_results := merged top web results |}
  = (Ok tt, {| events := log;
               all_results :=
                 merged top (copy_into "results" kvs web) results |}).
Proof.
  revert web. induction kvs as [|[key value] kvs IH]; intros web; [done|].
  rewrite copy_into_cons. cbn [copy_items]. unfold bind at 1.
  destruct (String.eqb_spec key "results") as [->|Hkey]; cbn [negb].
  - unfold ret at 1. apply IH.
  - rewrite set_web_run by done. apply IH.
Qed.

(** *** One pass through the loop body *)

(** What the loop body finds in a fetched page. *)
Inductive page_kind :=
| ErrorField                 (* a dictionary with an [error] key *)
| Raises (e : exn)           (* a value on which the body raises [e] *)
| Silent                     (* no [web.results] to take *)
| Merging (ys : list json).  (* the items of [web.results] *)

Definition classify (v : json) : page_kind :=
  match Py.contains v "error" with
  | Raise e => Raises e
  | Ok true =>
      match Py.getitem v "error" with
      | Ok _ => ErrorField
      | Raise e => Raises e
      end
  | Ok false =>
      match Py.contains v "web" with
      | Raise e => Raises e
      | Ok false => Silent
      | Ok true =>
          match Py.getitem v "web" with
          | Raise e => Raises e
          | Ok web =>
              match Py.contains web "results" with
              | Raise e => Raises e
              | Ok false => Silent
              | Ok true =>
                  match Py.getitem web "results" with
                  | Raise e => Raises e
                  | Ok results =>
                      match Py.iterate results with
                      | Raise e => Raises e
                      | Ok ys => Merging ys
                      end
                  end
              end
          end
      end
  end.

(** A page fails when it carries an error or makes the body raise. *)
Definition page_failed (v : json) : bool :=
  match classify v with
  | ErrorField | Raises _ => true
  | Silent | Merging _ => false
  end.

(** The items a page adds to [web.results]. *)
Definition page_items (v : json) : list json :=
  match classify v with Merging ys => ys | _ => [] end.

Definition dict_of (v : json) : gmap string json :=
  match v with JObj m => m | _ => ∅ end.

(** The metadata taken from a page when it is page 0: its top-level entries
    but [web], and the entries of its [web] but [results]; nothing when the
    page has no [web.results]. *)
Definition page_top (v : json) : gmap string json :=
  match classify v with
  | Merging _ => delete "web" (dict_of v)
  | _ => ∅
  end.
Definition page_web (v : json) : gmap string json :=
  match classify v with
  | Merging _ => delete "results" (default ∅ (web_object v))
  | _ => ∅
  end.

(** A dictionary with an [error] key is a failed page. *)
Lemma classify_error_field (v : json) :
  is_Some (error_field v) → classify v = ErrorField.
Proof.
  intros [err Herr]. destruct v; try done. simpl in Herr.
  unfold classify; simpl. by rewrite Herr.
Qed.

Lemma classify_ErrorField_inv (v : json) :
  classify v = ErrorField → is_Some (error_field v).
Proof.
  unfold classify. destruct v as [| | |s|xs|m]; simpl; try done.
  - by repeat (case_match; try done).
  - by repeat (case_match; try done).
  - destruct (m !! "error") eqn:Herr; [by eexists|].
    by repeat (case_match; try done).
Qed.

(** The usual page, a dictionary without [error] whose [web.results] is a
    list, gives its items; one without [web] gives none. *)
Lemma classify_results_list (m w : gmap string json) (xs : list json) :
  m !! "error" = None →
  m !! "web" = Some (JObj w) →
  w !! "results" = Some (JArr xs) →
  classify (JObj m) = Merging xs.
Proof.
  intros Herr Hweb Hres. unfold classify; simpl.
  rewrite Herr, Hweb; simpl. by rewrite Hres.
Qed.

Lemma classify_no_web (m : gmap string json) :
  m !! "error" = None → m !! "web" = None → classify (JObj m) = Silent.
Proof. intros Herr Hweb. unfold classify; simpl. by rewrite Herr, Hweb. Qed.

(** A page whose items are taken is a dictionary without [error] whose
    [web] is a dictionary. *)
Lemma classify_Merging_inv (v : json) (ys : list json) :
  classify v = Merging ys →
  ∃ m w results,
    v = JObj m ∧ m !! "error" = None ∧ m !! "web" = Some (JObj w)
    ∧ w !! "results" = Some results ∧ Py.iterate results = Ok ys.
Proof.
  unfold classify. destruct v as [| | |s|xs|m]; simpl; try done.
  - destruct (Py.substring_of "error" s); [done|].
    by destruct (Py.substring_of "web" s).
  - destruct (existsb _ xs); [done|]. by destruct (existsb _ xs).
  - destruct (m !! "error") eqn:Herr; [done|].
    destruct (m !! "web") as [web|] eqn:Hweb; [|done].
    destruct web as [| | |s|xs|w]; simpl; try done.
    + by destruct (Py.substring_of "results" s).
    + by destruct (existsb _ xs).
    + destruct (w !! "results") as [results|] eqn:Hres; [|done].
      destruct (Py.iterate results) as [ys'|e] eqn:Hys; [|done].
      intros [= <-]. by eexists _, _, _.
Qed.

Section AggregatorFacts.

Variable net : request → http_outcome.
Variables (api_key query : string) (max_results : Z).
Variables (country search_lang ui_lang safesearch : string).

(** The request the aggregator issues for a page. *)
Definition request_of_page (page : Z) : request :=
  search_request api_key query 10 page country search_lang ui_lang
    safesearch.

(** The envelope [fetch_search_results] returns for a page. *)
Definition page_value (page : Z) : json :=
  match (fetch_search_results net api_key query 10 page country
           search_lang ui_lang safesearch []).1 with
  | Ok v => v
  | Raise _ => JNull
  end.

Lemma fetch_page_run (page : Z) (log : list event) (all : json) :
  io (fetch_search_results net api_key query results_per_page page country
        search_lang ui_lang safesearch)
    {| events := log; all_results := all |}
  = (Ok (page_value page),
     {| events := log ++ [EvGet (request_of_page page)];
        all_results := all |}).
Proof.
  unfold io, page_value; simpl. rewrite fetch_search_results_run.
  destruct (fetch_search_results_never_raises net api_key query 10 page
              country search_lang ui_lang safesearch []) as [v Hv].
  unfold results_per_page. by rewrite Hv.
Qed.

(** The test that ends every pass without a failure. *)
Definition threshold (log : list event) (top web : gmap string json)
    (results : list json) : result control * frame :=
  if max_results <=? Z.of_nat (length results) then
    (Ok Break,
     {| events := log;
        all_results := merged top web (Py.slice_to results max_results) |})
  else
    (Ok Next, {| events := log; all_results := merged top web results |}).

(** The loop body as a function of the page it fetches. *)
Lemma loop_body_run (page : Z) (log : list event)
    (top web : gmap string json) (results : list json) :
  let v := page_value page in
  let log' := log ++ [EvGet (request_of_page page)] in
  loop_body net api_key query max_results country search_lang ui_lang
    safesearch page
    {| events := log; all_results := merged top web results |}
  = match classify v with
    | ErrorField =>
        (Ok (if page =? 0 then Return v else Break),
         {| events := log'; all_results := merged top web results |})
    | Raises e =>
        (Ok (if page =? 0
             then Return (error_envelope
                            ("Error in pagination: " +:+ exn_str e))
             else Break),
         {| events := log'; all_results := merged top web results |})
    | Silent => threshold log' top web results
    | Merging ys =>
        if page =? 0 then
          threshold log' (page_top v ∪ top) (page_web v ∪ web)
            (results ++ ys)
        else threshold log' top web (results ++ ys)
    end.
Proof.
  intros v log'. unfold loop_body, try_page.
  unfold try_except at 1. unfold bind at 1. rewrite fetch_page_run.
  fold v log'. unfold page_top, page_web.
  assert (Hclass := eq_refl (classify v)).
  revert Hclass. generalize (classify v) at 1 3 4 5. unfold classify.
  pose proof len_web_results_run as Hlen.
  pose proof truncate_web_results_run as Htrunc.
  destruct (Py.contains v "error") as [[|]|e0] eqn:Herr; run_step.
  - destruct (Py.getitem v "error") as [x|e1] eqn:Hget; run_step;
      intros ? ->; by destruct (page =? 0).
  - destruct (Py.contains v "web") as [[|]|e0] eqn:Hweb; run_step.
    + destruct (Py.getitem v "web") as [webv|e1] eqn:Hgw; run_step.
      * destruct (Py.contains webv "results") as [[|]|e0] eqn:Hcr; run_step.
        -- destruct (Py.getitem webv "results") as [r|e1] eqn:Hgr; run_step.
           ++ destruct (Py.iterate r) as [ys|e1] eqn:Hys.
              ** rewrite (extend_web_results_ok _ _ _ _ _ _ Hys).
                 intros ? Hclass.
                 destruct (classify_Merging_inv v ys)
                   as (m & w & r' & Hv & Hme & Hmw & Hwr & Hys').
                 { unfold classify.
                   by rewrite Herr, Hweb, Hgw, Hcr, Hgr, Hys. }
                 rewrite Hclass. clear Hclass.
                 destruct (page =? 0).
                 --- assert (webv = JObj w) as ->.
                     { rewrite Hv in Hgw. simpl in Hgw. rewrite Hmw in Hgw.
                       congruence. }
                     rewrite Hv. cbn [Py.items dict_of]. run_step.
                     rewrite copy_items_set_top. run_step.
                     cbn [Py.items]. run_step.
                     rewrite copy_items_set_web. run_step.
                     rewrite !copy_into_map_to_list.
                     unfold web_object. rewrite Hmw. cbn [default].
                     rewrite Hlen. unfold threshold.
                     destruct (max_results <=? _); run_step; [|done].
                     by rewrite Htrunc.
                 --- run_step. rewrite Hlen. unfold threshold.
                     destruct (max_results <=? _); run_step; [|done].
                     by rewrite Htrunc.
              ** rewrite (extend_web_results_raise _ _ _ _ _ _ Hys).
                 intros ? ->. by destruct (page =? 0).
           ++ intros ? ->. by destruct (page =? 0).
        -- intros ? ->. rewrite Hlen. unfold threshold.
           destruct (max_results <=? _); run_step; [|done].
           by rewrite Htrunc.
        -- intros ? ->. by destruct (page =? 0).
      * intros ? ->. by destruct (page =? 0).
    + intros ? ->. rewrite Hlen. unfold threshold.
      destruct (max_results <=? _); run_step; [|done].
      by rewrite Htrunc.
    + intros ? ->. by destruct (page =? 0).
  - intros ? ->. by destruct (page =? 0).
Qed.

(** *** The loop *)

Local Abbreviation page_of k := (page_value (Z.of_nat k)).
Local Abbreviation run_pages :=
  (for_pages net api_key query max_results country search_lang ui_lang
     safesearch).

(** The items of the first [k] pages, in order. *)
Fixpoint gathered (k : nat) : list json :=
  match k with
  | O => []
  | S k' => gathered k' ++ page_items (page_of k')
  end.

(** The pass through page [k] ends the loop: the page fails, or with its
    items the count reaches [max_results]. *)
Definition stops (k : nat) : bool :=
  page_failed (page_of k)
  || (max_results <=? Z.of_nat (length (gathered (S k)))).

(** The requests for the first [k] pages. *)
Definition requests (k : nat) : list event :=
  (λ i, EvGet (request_of_page (Z.of_nat i))) <$> seq 0 k.

(** The metadata in [all_results] once [k] pages are through. *)
Definition top_after (k : nat) : gmap string json :=
  match k with O => ∅ | S _ => page_top (page_of 0) end.
Definition web_after (k : nat) : gmap string json :=
  match k with O => ∅ | S _ => page_web (page_of 0) end.

Lemma requests_S (k : nat) :
  requests (S k) = requests k ++ [EvGet (request_of_page (Z.of_nat k))].
Proof. unfold requests. by rewrite seq_S, fmap_app. Qed.

Lemma for_pages_cons (page : Z) (pages : list Z) (f : frame) :
  run_pages (page :: pages) f
  = match loop_body net api_key query max_results country search_lang
            ui_lang safesearch page f with
    | (Ok Next, f') => run_pages pages f'
    | (Ok Break, f') => (Ok None, f')
    | (Ok (Return v), f') => (Ok (Some v), f')
    | (Raise e, f') => (Raise e, f')
    end.
Proof.
  cbn [for_pages]. rewrite bind_run.
  by destruct (loop_body _ _ _ _ _ _ _ _ _ _) as [[[| |v]|e] f'].
Qed.

(** A page that does not stop the loop leaves its items behind. *)
Lemma loop_body_continue (k : nat) (log : list event) :
  stops k = false →
  loop_body net api_key query max_results country search_lang ui_lang
    safesearch (Z.of_nat k)
    {| events := log;
       all_results := merged (top_after k) (web_after k) (gathered k) |}
  = (Ok Next,
     {| events := log ++ [EvGet (request_of_page (Z.of_nat k))];
        all_results :=
          merged (top_after (S k)) (web_after (S k)) (gathered (S k)) |}).
Proof.
  unfold stops, page_failed. intros [Hok Hlt]%orb_false_elim.
  rewrite loop_body_run. cbn [gathered] in *.
  unfold page_items, top_after, web_after, page_top, page_web in *.
  destruct (classify (page_of k)) as [|e| |ys] eqn:Hclass; try done.
  - rewrite app_nil_r in Hlt |- *. unfold threshold. rewrite Hlt.
    destruct k as [|k]; [|done]. by rewrite Hclass.
  - destruct k as [|k]; simpl in *.
    + rewrite Hclass, !(right_id_L ∅ (∪)). unfold threshold.
      by rewrite Hlt.
    + unfold threshold. by rewrite Hlt.
Qed.

(** Pages that do not stop the loop are gone through one by one. *)
Lemma for_pages_continue (k n : nat) (log : list event) :
  (∀ j, (j < k)%nat → stops j = false) →
  run_pages (Z.of_nat <$> seq 0 (k + n))
    {| events := log; all_results := fresh_all_results |}
  = run_pages (Z.of_nat <$> seq k n)
      {| events := log ++ requests k;
         all_results := merged (top_after k) (web_after k) (gathered k) |}.
Proof.
  revert n. induction k as [|k IH]; intros n Hgo.
  { unfold requests; simpl. by rewrite app_nil_r. }
  replace (S k + n)%nat with (k + S n)%nat by lia.
  rewrite IH by (intros; apply Hgo; lia).
  cbn [seq fmap list_fmap]. rewrite for_pages_cons.
  rewrite loop_body_continue by (apply Hgo; lia).
  by rewrite requests_S, app_assoc.
Qed.

(** What the function returns when the pass through page [k] is the
    first to stop the loop. *)
Definition stopped_result (k : nat) : json :=
  match classify (page_of k) with
  | ErrorField =>
      match k with
      | O => page_of 0
      | S _ => merged (top_after k) (web_after k) (gathered k)
      end
  | Raises e =>
      match k with
      | O => error_envelope ("Error in pagination: " +:+ exn_str e)
      | S _ => merged (top_after k) (web_after k) (gathered k)
      end
  | Silent | Merging _ =>
      merged (top_after (S k)) (web_after (S k))
        (Py.slice_to (gathered (S k)) max_results)
  end.

(** How the function ends once the loop is over. *)
Definition finish (r : result (option json) * frame)
  : result json * list event :=
  match r with
  | (Ok (Some v), f) => (Ok v, events f)
  | (Ok None, f) => (Ok (all_results f), events f)
  | (Raise e, f) =>
      (Ok (error_envelope
             ("Error in search_with_pagination: " +:+ exn_str e)),
       events f)
  end.

Lemma search_with_pagination_finish (log : list event) :
  search_with_pagination net api_key query max_results country search_lang
    ui_lang safesearch log
  = finish (run_pages (Py.range (num_pages max_results))
              {| events := log; all_results := fresh_all_results |}).
Proof.
  unfold search_with_pagination, try_except, finish. rewrite bind_run.
  by destruct (run_pages _ _) as [[[v|]|e] f].
Qed.

Lemma for_pages_stop (k : nat) (pages : list Z) (log : list event) :
  stops k = true →
  finish (run_pages (Z.of_nat k :: pages)
            {| events := log ++ requests k;
               all_results :=
                 merged (top_after k) (web_after k) (gathered k) |})
  = (Ok (stopped_result k), log ++ requests (S k)).
Proof.
  unfold stops, page_failed, stopped_result. intros Hstop.
  rewrite for_pages_cons, loop_body_run, requests_S, app_assoc.
  cbn [gathered] in *. unfold page_items in *.
  destruct (classify (page_of k)) as [|e| |ys] eqn:Hclass.
  - by destruct k.
  - by destruct k.
  - simpl in Hstop. rewrite app_nil_r in Hstop |- *.
    unfold threshold. rewrite Hstop. simpl.
    destruct k; [|done]. unfold page_top, page_web; simpl.
    by rewrite Hclass.
  - simpl in Hstop. destruct k as [|k]; simpl in *.
    + unfold threshold. rewrite Hstop. simpl.
      by rewrite !(right_id_L ∅ (∪)).
    + unfold threshold. by rewrite Hstop.
Qed.

(** The first page whose pass stops the loop, among the first [n]. *)
Definition first_stop (n : nat) : option nat :=
  fst <$> list_find (λ k, stops k = true) (seq 0 n).

Lemma first_stop_Some (n k : nat) :
  first_stop n = Some k ↔
  (k < n)%nat ∧ stops k = true ∧ ∀ j, (j < k)%nat → stops j = false.
Proof.
  unfold first_stop. rewrite fmap_Some. split.
  - intros [[i x] [Hfind ->]]. apply list_find_Some in Hfind.
    destruct Hfind as (Hi & Hx & Hbefore). apply lookup_seq in Hi as [-> Hi].
    simpl in *. repeat split; [done..|]. intros j Hj.
    apply not_true_is_false, (Hbefore j j); [|done].
    apply lookup_seq. split; [done|lia].
  - intros (Hk & Hstop & Hbefore). exists (k, k). split; [|done].
    apply list_find_Some. split; [by apply lookup_seq|].
    split; [done|].
    intros j y [-> _]%lookup_seq Hj. simpl. by rewrite Hbefore.
Qed.

Lemma first_stop_None (n : nat) :
  first_stop n = None ↔ ∀ j, (j < n)%nat → stops j = false.
Proof.
  unfold first_stop. rewrite fmap_None, list_find_None, Forall_forall.
  split.
  - intros Hall j Hj. apply not_true_is_false, Hall, elem_of_seq. lia.
  - intros Hall j [_ Hj]%elem_of_seq. rewrite Hall; [done|lia].
Qed.

(** The aggregator as a function of the pages it is served. *)
Theorem search_with_pagination_spec (log : list event) :
  let n := Z.to_nat (num_pages max_results) in
  search_with_pagination net api_key query max_results country search_lang
    ui_lang safesearch log
  = match first_stop n with
    | Some k => (Ok (stopped_result k), log ++ requests (S k))
    | None =>
        (Ok (merged (top_after n) (web_after n) (gathered n)),
         log ++ requests n)
    end.
Proof.
  intros n. rewrite search_with_pagination_finish. unfold Py.range.
  fold n. destruct (first_stop n) as [k|] eqn:Hfirst.
  - apply first_stop_Some in Hfirst as (Hk & Hstop & Hbefore).
    replace n with (k + S (n - S k))%nat by lia.
    rewrite for_pages_continue by done.
    cbn [seq fmap list_fmap]. by apply for_pages_stop.
  - rewrite first_stop_None in Hfirst.
    replace n with (n + 0)%nat at 1 by lia.
    by rewrite for_pages_continue.
Qed.

(** *** Numbers of pages and of items *)

(** [num_pages] is the ceiling of [max_results / 10]. *)
Lemma num_pages_ceiling :
  10 * (num_pages max_results - 1) < max_results ≤ 10 * num_pages max_results.
Proof.
  unfold num_pages, results_per_page.
  pose proof (Z.div_mod (max_results + 10 - 1) 10).
  pose proof (Z.mod_pos_bound (max_results + 10 - 1) 10). lia.
Qed.

Lemma gathered_length_mono (j k : nat) :
  (j ≤ k)%nat → (length (gathered j) ≤ length (gathered k))%nat.
Proof.
  induction 1 as [|k _ IH]; [done|].
  cbn [gathered]. rewrite length_app. lia.
Qed.

(** Pages that neither fail nor bring the count to [max_results] do not
    stop the loop. *)
Lemma stops_false (k : nat) :
  stops k = false ↔
  page_failed (page_of k) = false
  ∧ Z.of_nat (length (gathered (S k))) < max_results.
Proof.
  unfold stops. rewrite orb_false_iff, Z.leb_gt. done.
Qed.

Lemma stops_before (k : nat) :
  (∀ j, (j < k)%nat → page_failed (page_of j) = false) →
  (k = 0%nat ∨ Z.of_nat (length (gathered k)) < max_results) →
  ∀ j, (j < k)%nat → stops j = false.
Proof.
  intros Hok Hcount j Hj. apply stops_false. split; [by apply Hok|].
  destruct Hcount as [->|Hcount]; [lia|].
  pose proof (gathered_length_mono (S j) k). lia.
Qed.

(** *** Failed pages *)

Lemma page_failed_error_field (v : json) :
  is_Some (error_field v) → page_failed v = true.
Proof.
  intros Herr. unfold page_failed. by rewrite classify_error_field.
Qed.

(** A GET that fails makes a failed page: the envelope of
    [fetch_search_results] then carries an [error]. *)
Lemma page_value_http_failed (page : Z) :
  http_failed (net (request_of_page page)) →
  is_Some (error_field (page_value page)).
Proof.
  intros Hfail.
  destruct (fetch_search_results_http_failed net api_key query 10 page
              country search_lang ui_lang safesearch [] Hfail)
    as (env & msg & Hrun & Herr & _).
  unfold page_value. rewrite Hrun. simpl. by rewrite Herr.
Qed.

(** *** The metadata of page 0 *)

Lemma page_top_lookup (v : json) (key : string) (x : json) :
  page_top v !! key = Some x → key ≠ "web" ∧ dict_of v !! key = Some x.
Proof.
  unfold page_top. destruct (classify v); try done.
  by intros [? ?]%lookup_delete_Some.
Qed.

Lemma page_web_lookup (v : json) (key : string) (x : json) :
  page_web v !! key = Some x →
  key ≠ "results" ∧ ∃ w, web_object v = Some w ∧ w !! key = Some x.
Proof.
  unfold page_web. destruct (classify v) as [| | |ys] eqn:Hclass; try done.
  intros [? Hx]%lookup_delete_Some. split; [done|].
  apply classify_Merging_inv in Hclass
    as (m & w & r & -> & _ & Hmw & _ & _).
  unfold web_object in *. rewrite Hmw in *. by exists w.
Qed.

Lemma page_top_no_error (v : json) : page_top v !! "error" = None.
Proof.
  unfold page_top. destruct (classify v) as [| | |ys] eqn:Hclass; try done.
  apply classify_Merging_inv in Hclass
    as (m & w & r & -> & Herr & _ & _ & _).
  by rewrite lookup_delete_ne.
Qed.

Lemma page_top_no_web (v : json) : page_top v !! "web" = None.
Proof.
  unfold page_top. destruct (classify v); try done.
  by rewrite lookup_delete_eq.
Qed.

Lemma page_web_no_results (v : json) : page_web v !! "results" = None.
Proof.
  unfold page_web. destruct (classify v); try done.
  by rewrite lookup_delete_eq.
Qed.

Lemma top_after_no_error (k : nat) : top_after k !! "error" = None.
Proof. destruct k; [done|]. apply page_top_no_error. Qed.

Lemma error_field_merged (top web : gmap string json)
    (results : list json) :
  error_field (merged top web results) = top !! "error".
Proof. unfold error_field, merged. by rewrite lookup_insert_ne. Qed.

(** *** What the aggregator guarantees *)

Local Abbreviation aggregate :=
  (search_with_pagination net api_key query max_results country
     search_lang ui_lang safesearch).

Lemma pages_positive :
  1 ≤ max_results → (0 < Z.to_nat (num_pages max_results))%nat.
Proof. pose proof num_pages_ceiling. lia. Qed.

(** Without a positive [max_results] no page is requested, not even page 0,
    and the initial [all_results] comes back. *)
Lemma search_with_pagination_no_page (log : list event) :
  max_results ≤ 0 → aggregate log = (Ok fresh_all_results, log).
Proof.
  intros Hmax. rewrite search_with_pagination_spec.
  pose proof num_pages_ceiling.
  replace (Z.to_nat (num_pages max_results)) with 0%nat by lia.
  unfold requests; simpl. by rewrite app_nil_r.
Qed.

(** C2.  When page 0 is fetched and comes back with an [error] field, or
    its GET fails, the aggregator returns the envelope fetched for page 0
    as it is, and page 0 is the only page it has requested. *)
Theorem search_with_pagination_first_page_error (log : list event) :
  1 ≤ max_results →
  is_Some (error_field (page_value 0))
  ∨ http_failed (net (request_of_page 0)) →
  aggregate log = (Ok (page_value 0), log ++ [EvGet (request_of_page 0)])
  ∧ is_Some (error_field (page_value 0)).
Proof.
  intros Hmax Hfail.
  assert (Herr : is_Some (error_field (page_value 0))).
  { destruct Hfail as [?|?]; [done|by apply page_value_http_failed]. }
  split; [|done]. rewrite search_with_pagination_spec.
  assert (Hfirst : first_stop (Z.to_nat (num_pages max_results)) = Some 0%nat).
  { apply first_stop_Some. split; [by apply pages_positive|].
    split; [|lia]. unfold stops.
    by rewrite (page_failed_error_field (page_of 0) Herr). }
  rewrite Hfirst. unfold stopped_result.
  by rewrite (classify_error_field (page_of 0) Herr).
Qed.

(** C3.  When the pages before page [k >= 1] neither fail nor bring the
    count to [max_results], and page [k] fails, the aggregator stops
    there: it has requested pages [0..k], and it returns an envelope
    without [error] whose [web.results] are the items of pages
    [0..k-1]. *)
Theorem search_with_pagination_later_page_error (k : nat)
    (log : list event) :
  (1 ≤ k)%nat →
  Z.of_nat k < num_pages max_results →
  (∀ j, (j < k)%nat → page_failed (page_of j) = false) →
  Z.of_nat (length (gathered k)) < max_results →
  page_failed (page_of k) = true →
  ∃ env,
    aggregate log = (Ok env, log ++ requests (S k))
    ∧ web_results env = Some (gathered k)
    ∧ error_field env = None.
Proof.
  intros Hk Hpages Hok Hcount Hfail.
  exists (merged (top_after k) (web_after k) (gathered k)).
  rewrite web_results_merged, error_field_merged, top_after_no_error.
  split; [|done]. rewrite search_with_pagination_spec.
  assert (Hfirst : first_stop (Z.to_nat (num_pages max_results)) = Some k).
  { apply first_stop_Some. split; [lia|]. split.
    - unfold stops. by rewrite Hfail.
    - apply stops_before; [done|by right]. }
  rewrite Hfirst. unfold stopped_result, page_failed in *.
  destruct (classify (page_of k)); try done; by destruct k; [lia|].
Qed.

Lemma slice_to_nonneg {A} (xs : list A) (n : Z) :
  0 ≤ n → Py.slice_to xs n = take (Z.to_nat n) xs.
Proof. intros Hn. unfold Py.slice_to. by rewrite (proj2 (Z.leb_le 0 n)). Qed.

(** Whatever the pages are, what comes back without [error] is
    [all_results], with at most [max_results] items once that is not
    negative. *)
Lemma search_with_pagination_bounded (log : list event) :
  0 ≤ max_results →
  ∃ env,
    (aggregate log).1 = Ok env
    ∧ (error_field env = None →
       ∃ items, web_results env = Some items
                ∧ Z.of_nat (length items) ≤ max_results).
Proof.
  intros Hmax. rewrite search_with_pagination_spec.
  set (n := Z.to_nat (num_pages max_results)).
  destruct (first_stop n) as [k|] eqn:Hfirst; simpl.
  - apply first_stop_Some in Hfirst as (Hk & Hstop & Hbefore).
    assert (Hprev : ∀ k', k = S k' →
              Z.of_nat (length (gathered k)) < max_results).
    { intros k' ->. apply (stops_false k'), Hbefore. lia. }
    assert (Hcut : Z.of_nat (length (Py.slice_to (gathered (S k))
                                       max_results)) ≤ max_results).
    { rewrite slice_to_nonneg, length_take by done. lia. }
    eexists; split; [done|]. intros Herr. unfold stopped_result in *.
    destruct (classify (page_of k)) as [|e| |ys] eqn:Hclass.
    + destruct k as [|k'].
      * apply classify_ErrorField_inv in Hclass as [? Hclass]. congruence.
      * rewrite web_results_merged. eexists; split; [done|].
        specialize (Hprev k' eq_refl). lia.
    + destruct k as [|k']; [done|].
      rewrite web_results_merged. eexists; split; [done|].
      specialize (Hprev k' eq_refl). lia.
    + rewrite web_results_merged. by eexists.
    + rewrite web_results_merged. by eexists.
  - rewrite first_stop_None in Hfirst.
    eexists; split; [done|]. intros _. rewrite web_results_merged.
    eexists; split; [done|]. destruct n as [|n']; [simpl; lia|].
    assert (stops n' = false) as [_ ?]%stops_false by (apply Hfirst; lia).
    lia.
Qed.

(** When the items of page [k] bring the count to [max_results], the
    aggregator returns the first [max_results] items and has requested
    no page after [k]. *)
Lemma search_with_pagination_threshold (k : nat) (log : list event) :
  0 ≤ max_results →
  Z.of_nat k < num_pages max_results →
  (∀ j, (j < k)%nat → page_failed (page_of j) = false) →
  (k = 0%nat ∨ Z.of_nat (length (gathered k)) < max_results) →
  page_failed (page_of k) = false →
  max_results ≤ Z.of_nat (length (gathered (S k))) →
  ∃ env,
    aggregate log = (Ok env, log ++ requests (S k))
    ∧ web_results env
      = Some (take (Z.to_nat max_results) (gathered (S k)))
    ∧ Z.of_nat (length (take (Z.to_nat max_results) (gathered (S k))))
      = max_results.
Proof.
  intros Hmax Hpages Hok Hcount Hpage Hfull.
  rewrite search_with_pagination_spec.
  assert (Hfirst : first_stop (Z.to_nat (num_pages max_results)) = Some k).
  { apply first_stop_Some. split; [lia|]. split.
    - unfold stops. rewrite Hpage; simpl. by apply Z.leb_le.
    - by apply stops_before. }
  rewrite Hfirst. unfold stopped_result, page_failed in *.
  rewrite slice_to_nonneg by done.
  destruct (classify (page_of k)); try done;
    (eexists; split; [done|]; rewrite web_results_merged;
     split; [done|]; rewrite length_take_le; lia).
Qed.

(** C4.  For [max_results >= 0]: an envelope that comes back without
    [error] has at most [max_results] items in [web.results]; and when a
    page that does not fail brings the count of items to [max_results] or
    more, the list returned is cut to exactly the first [max_results] of
    them and no later page is requested. *)
Theorem search_with_pagination_count (log : list event) :
  0 ≤ max_results →
  (∃ env,
     (aggregate log).1 = Ok env
     ∧ (error_field env = None →
        ∃ items, web_results env = Some items
                 ∧ Z.of_nat (length items) ≤ max_results))
  ∧ ∀ k : nat,
      Z.of_nat k < num_pages max_results →
      (∀ j, (j < k)%nat → page_failed (page_of j) = false) →
      (k = 0%nat ∨ Z.of_nat (length (gathered k)) < max_results) →
      page_failed (page_of k) = false →
      max_results ≤ Z.of_nat (length (gathered (S k))) →
      ∃ env,
        aggregate log = (Ok env, log ++ requests (S k))
        ∧ web_results env
          = Some (take (Z.to_nat max_results) (gathered (S k)))
        ∧ Z.of_nat (length (take (Z.to_nat max_results)
                              (gathered (S k))))
          = max_results.
Proof.
  intros Hmax. split.
  - by apply search_with_pagination_bounded.
  - intros k. by apply search_with_pagination_threshold.
Qed.

(** C5.  When page 0 is fetched and does not fail, the entries of the
    returned envelope other than [web], and the entries of its [web]
    other than [results], are those taken from page 0 ([page_top] and
    [page_web] of that page), whatever the later pages hold. *)
Theorem search_with_pagination_metadata (log : list event) :
  1 ≤ max_results →
  page_failed (page_value 0) = false →
  ∃ env w,
    (aggregate log).1 = Ok env
    ∧ web_object env = Some w
    ∧ delete "web" (dict_of env) = page_top (page_value 0)
    ∧ delete "results" w = page_web (page_value 0).
Proof.
  intros Hmax Hpage.
  assert (Hshape : ∀ rs,
    let env := merged (page_top (page_of 0)) (page_web (page_of 0)) rs in
    ∃ w, web_object env = Some w
         ∧ delete "web" (dict_of env) = page_top (page_value 0)
         ∧ delete "results" w = page_web (page_value 0)).
  { intros rs env. eexists. split; [apply web_object_merged|].
    unfold env, merged; simpl.
    by rewrite !delete_insert_id
      by (apply page_top_no_web || apply page_web_no_results). }
  rewrite search_with_pagination_spec.
  pose proof (pages_positive Hmax) as Hn.
  destruct (Z.to_nat (num_pages max_results)) as [|n]; [lia|].
  destruct (first_stop (S n)) as [k|] eqn:Hfirst; simpl.
  - unfold stopped_result, page_failed in *.
    destruct k as [|k].
    + change (Z.of_nat 0) with 0 in *.
      destruct (classify (page_value 0)); try done;
        (destruct (Hshape (Py.slice_to (gathered 1) max_results))
           as (w & ? & ? & ?); by eexists _, w).
    + destruct (classify (page_of (S k)));
        (edestruct Hshape as (w & ? & ? & ?); by eexists _, w).
  - destruct (Hshape (gathered (S n))) as (w & ? & ? & ?).
    by eexists _, w.
Qed.

(** C6.  For [max_results >= 1] the number of pages planned is the
    ceiling of [max_results / 10].  The aggregator requests pages
    [0..n-1] in order for some [1 <= n <= num_pages], page [i] with
    [count = 10] and [offset = i].  Only the last pass can have stopped
    the loop, and [n] is less than [num_pages] only if it did: page
    [n-1] failed, or brought the count of items to [max_results]. *)
Theorem search_with_pagination_requests (log : list event) :
  1 ≤ max_results →
  10 * (num_pages max_results - 1) < max_results ≤ 10 * num_pages max_results
  ∧ ∃ n : nat,
      (1 ≤ n)%nat
      ∧ Z.of_nat n ≤ num_pages max_results
      ∧ (aggregate log).2
        = log ++ ((λ i : nat,
                     EvGet (search_request api_key query 10 (Z.of_nat i)
                              country search_lang ui_lang safesearch))
                  <$> seq 0 n)
      ∧ (∀ j, (S j < n)%nat →
           page_failed (page_of j) = false
           ∧ Z.of_nat (length (gathered (S j))) < max_results)
      ∧ (Z.of_nat n < num_pages max_results →
         page_failed (page_of (n - 1)) = true
         ∨ max_results ≤ Z.of_nat (length (gathered n))).
Proof.
  intros Hmax. split; [apply num_pages_ceiling|].
  rewrite search_with_pagination_spec.
  pose proof (pages_positive Hmax) as Hn.
  destruct (first_stop _) as [k|] eqn:Hfirst.
  - apply first_stop_Some in Hfirst as (Hk & Hstop & Hbefore).
    exists (S k). split; [lia|]. split; [lia|]. split; [done|].
    split.
    + intros j Hj. apply stops_false, Hbefore. lia.
    + intros _. replace (S k - 1)%nat with k by lia.
      unfold stops in Hstop. apply orb_true_iff in Hstop as [?|?];
        [by left|right]. by apply Z.leb_le.
  - rewrite first_stop_None in Hfirst.
    exists (Z.to_nat (num_pages max_results)).
    split; [lia|]. split; [lia|]. split; [done|]. split; [|lia].
    intros j Hj. apply stops_false, Hfirst. lia.
Qed.

End AggregatorFacts.

(** * Concrete runs *)

Module Sample.

Definition ctx : RunContext := {| deps := {| brave_api_key := "key" |} |}.

Definition answer (status : Z) (body : string) (parsed : result json)
  : http_outcome :=
  Responded {| status_code := status; text := body; body_json := parsed |}.

Definition item (title : string) : json :=
  JObj (<["title" := JStr title]>
        (<["url" := JStr ("https://example.org/" +:+ title)]>
         (<["description" := JStr "about"]> ∅))).

(** A page of results, with one top-level and one [web] metadata entry. *)
Definition page (label : string) (titles : list string) : json :=
  JObj (<["type" := JStr label]>
        (<["web" := JObj (<["family_friendly" := JStr label]>
                          (<["results" := JArr (item <$> titles)]> ∅))]>
         ∅)).

Definition offset_of (r : request) : Z :=
  match req_params r !! 2%nat with
  | Some (_, JNum n) => n
  | _ => -1
  end.

Definition titles (prefix : string) : list string :=
  (λ i : nat, prefix +:+ pretty i) <$> seq 0 10.

(** A search endpoint that serves two pages of ten items and then
    answers 500. *)
Definition net (r : request) : http_outcome :=
  match offset_of r with
  | 0 => answer 200 "" (Ok (page "first" (titles "a")))
  | 1 => answer 200 "" (Ok (page "second" (titles "b")))
  | _ => answer 500 "Internal Server Error"
           (Raise (JSONDecodeError "Expecting value"))
  end.

(** A network on which every GET raises. *)
Definition net_down (r : request) : http_outcome :=
  Faulted (RequestError "connection refused").

(** A site whose page, served with status 200, mentions an error. *)
Definition net_faq (r : request) : http_outcome :=
  answer 200 "How to fix error 404" (Raise (JSONDecodeError "Expecting value")).

(** A runtime that raises on its first two invocations and then returns,
    appending the exchange to the history. *)
Definition runtime (n : nat) (user_input : string) (d : BraveSearchDeps)
    (history : list json) : result run_result * list json :=
  match n with
  | 0%nat | 1%nat => (Raise (RuntimeFault ("attempt " +:+ pretty n)), history)
  | _ => (Ok {| data := "done" |}, history ++ [JStr user_input; JStr "done"])
  end.

(** A runtime that always raises. *)
Definition runtime_down (n : nat) (user_input : string) (d : BraveSearchDeps)
    (history : list json) : result run_result * list json :=
  (Raise (RuntimeFault ("attempt " +:+ pretty n)), history).

End Sample.

(** C1.  The page at the URL answers 200 with a body that contains the word
    [error]: [fetch_page_content] hands the body back as it is, and
    [get_page_content] returns the empty string instead of it. *)
Theorem get_page_content_drops_body :
  fetch_page_content Sample.net_faq "key" "https://example.org/faq" []
  = (Ok "How to fix error 404",
     [EvGet (page_request "https://example.org/faq")])
  ∧ get_page_content Sample.net_faq Sample.ctx "https://example.org/faq" []
    = (Ok "", [EvGet (page_request "https://example.org/faq")]).
Proof. split; reflexivity. Qed.

(** The summary of [{"web": None}], an input with no [web.results] list:
    the lookup raises and the empty string comes back. *)
Lemma summarize_search_results_null_web :
  let results := JObj {["web" := JNull]} in
  web_results_field results = None
  ∧ summarize_search_results (λ _, "") Sample.ctx results [] = (Ok "", [])
  ∧ (summarize_search_results (λ _, "") Sample.ctx results []).1
    ≠ Ok "No search results found.".
Proof.
  split; [|split].
  - reflexivity.
  - vm_compute. reflexivity.
  - vm_compute. discriminate.
Qed.

(** With [max_results = -1] no page is requested and the envelope that
    comes back, without [error], holds 0 items: more than [max_results]. *)
Lemma search_with_pagination_negative_max :
  ∃ env items,
    search_with_pagination Sample.net "key" "rocq" (-1) "US" "en" "en-US"
      "moderate" [] = (Ok env, [])
    ∧ error_field env = None
    ∧ web_results env = Some items
    ∧ ¬ (Z.of_nat (length items) ≤ -1).
Proof.
  exists fresh_all_results, []. repeat split; try (vm_compute; reflexivity).
  simpl. lia.
Qed.

(** The constant fault: three invocations, two sleeps, and the last fault
    reaches the caller. *)
Example run_agent_with_retry_constant_fault :
  run_agent_with_retry Sample.runtime_down "hello" (deps Sample.ctx) None 3 []
  = (Raise (RuntimeFault "attempt 2"),
     {| retry_events := [EvAgentRun "hello" []; EvSleep 1;
                         EvAgentRun "hello" []; EvSleep 1;
                         EvAgentRun "hello" []];
        message_history := [] |}).
Proof. vm_compute. reflexivity. Qed.

(** The summary of one result. *)
Example summarize_search_results_one_item :
  summarize_search_results (λ _, "") Sample.ctx
    (JObj {["web" := JObj {["results" :=
       JArr [JObj (<["title" := JStr "A"]>
                   (<["url" := JStr "http://a"]>
                    (<["description" := JStr "d"]> ∅)))]]}]}) []
  = (Ok "## Search Results

### 1. A
**URL**: http://a
**Description**: d

", []).
Proof. vm_compute. reflexivity. Qed.

(** ** The theorems at work *)

(** The GET of page 0 raises: its error envelope is what comes back. *)
Lemma search_with_pagination_first_page_error_witness :
  search_with_pagination Sample.net_down "key" "rocq" 30 "US" "en" "en-US"
    "moderate" []
  = (Ok (page_value Sample.net_down "key" "rocq" "US" "en" "en-US"
           "moderate" 0),
     [] ++ [EvGet (request_of_page "key" "rocq" "US" "en" "en-US"
                     "moderate" 0)])
  ∧ is_Some (error_field (page_value Sample.net_down "key" "rocq" "US" "en"
                            "en-US" "moderate" 0)).
Proof.
  apply (search_with_pagination_first_page_error Sample.net_down "key" "rocq"
           30 "US" "en" "en-US" "moderate" []).
  - lia.
  - right. simpl. exact I.
Defined.

(** Two pages of two items, then a 500 on page 2, with 25 items asked. *)
Lemma search_with_pagination_later_page_error_witness :
  ∃ env,
    search_with_pagination Sample.net "key" "rocq" 25 "US" "en" "en-US"
      "moderate" []
    = (Ok env, [] ++ requests "key" "rocq" "US" "en" "en-US" "moderate" 3)
    ∧ web_results env
      = Some (gathered Sample.net "key" "rocq" "US" "en" "en-US" "moderate" 2)
    ∧ error_field env = None.
Proof.
  apply (search_with_pagination_later_page_error Sample.net "key" "rocq" 25
           "US" "en" "en-US" "moderate" 2 []).
  - lia.
  - reflexivity.
  - intros [|[|j]] Hj; [vm_compute; reflexivity..|lia].
  - vm_compute. reflexivity.
  - vm_compute. reflexivity.
Defined.

(** Fifteen items asked: page 1 brings the count to twenty, fifteen are
    kept. *)
Lemma search_with_pagination_count_witness :
  (∃ env,
     (search_with_pagination Sample.net "key" "rocq" 15 "US" "en" "en-US"
        "moderate" []).1 = Ok env
     ∧ (error_field env = None →
        ∃ items, web_results env = Some items
                 ∧ Z.of_nat (length items) ≤ 15))
  ∧ ∃ env,
      search_with_pagination Sample.net "key" "rocq" 15 "US" "en" "en-US"
        "moderate" []
      = (Ok env, [] ++ requests "key" "rocq" "US" "en" "en-US" "moderate" 2)
      ∧ web_results env
        = Some (take (Z.to_nat 15)
                  (gathered Sample.net "key" "rocq" "US" "en" "en-US"
                     "moderate" 2))
      ∧ Z.of_nat (length (take (Z.to_nat 15)
                            (gathered Sample.net "key" "rocq" "US" "en"
                               "en-US" "moderate" 2))) = 15.
Proof.
  assert (Hmax : 0 ≤ 15) by lia.
  destruct (search_with_pagination_count Sample.net "key" "rocq" 15 "US" "en"
              "en-US" "moderate" [] Hmax) as [Hbound Hcut].
  split; [exact Hbound|].
  apply (Hcut 1%nat).
  - reflexivity.
  - intros [|j] Hj; [vm_compute; reflexivity|lia].
  - right. vm_compute. reflexivity.
  - vm_compute. reflexivity.
  - vm_compute. discriminate.
Defined.

(** Page 0 does not fail: the metadata that comes back is its own. *)
Lemma search_with_pagination_metadata_witness :
  ∃ env w,
    (search_with_pagination Sample.net "key" "rocq" 25 "US" "en" "en-US"
       "moderate" []).1 = Ok env
    ∧ web_object env = Some w
    ∧ delete "web" (dict_of env)
      = page_top (page_value Sample.net "key" "rocq" "US" "en" "en-US"
                    "moderate" 0)
    ∧ delete "results" w
      = page_web (page_value Sample.net "key" "rocq" "US" "en" "en-US"
                    "moderate" 0).
Proof.
  apply (search_with_pagination_metadata Sample.net "key" "rocq" 25 "US" "en"
           "en-US" "moderate" []).
  - lia.
  - vm_compute. reflexivity.
Defined.

(** Twenty-five items asked: three pages planned. *)
Lemma search_with_pagination_requests_witness :
  10 * (num_pages 25 - 1) < 25 ≤ 10 * num_pages 25
  ∧ ∃ n : nat,
      (1 ≤ n)%nat
      ∧ Z.of_nat n ≤ num_pages 25
      ∧ (search_with_pagination Sample.net "key" "rocq" 25 "US" "en" "en-US"
           "moderate" []).2
        = [] ++ ((λ i : nat,
                    EvGet (search_request "key" "rocq" 10 (Z.of_nat i) "US"
                             "en" "en-US" "moderate"))
                 <$> seq 0 n)
      ∧ (∀ j, (S j < n)%nat →
           page_failed (page_value Sample.net "key" "rocq" "US" "en" "en-US"
                          "moderate" (Z.of_nat j)) = false
           ∧ Z.of_nat (length (gathered Sample.net "key" "rocq" "US" "en"
                                 "en-US" "moderate" (S j))) < 25)
      ∧ (Z.of_nat n < num_pages 25 →
         page_failed (page_value Sample.net "key" "rocq" "US" "en" "en-US"
                        "moderate" (Z.of_nat (n - 1))) = true
         ∨ 25 ≤ Z.of_nat (length (gathered Sample.net "key" "rocq" "US" "en"
                                    "en-US" "moderate" n))).
Proof.
  apply (search_with_pagination_requests Sample.net "key" "rocq" 25 "US" "en"
           "en-US" "moderate" []).
  lia.
Defined.

(** Every GET raises. *)
Lemma fetch_search_results_failure_witness :
  ∃ env msg,
    fetch_search_results Sample.net_down "key" "rocq" 10 0 "US" "en" "en-US"
      "moderate" []
    = (Ok env,
       [] ++ [EvGet (search_request "key" "rocq" 10 0 "US" "en" "en-US"
                       "moderate")])
    ∧ error_field env = Some (JStr msg)
    ∧ msg ≠ ""
    ∧ web_results env = Some [].
Proof.
  apply (fetch_search_results_failure Sample.net_down "key" "rocq" 10 0 "US"
           "en" "en-US" "moderate" []).
  simpl. exact I.
Defined.

(** The empty dictionary. *)
Lemma summarize_search_results_no_results_witness :
  summarize_search_results (λ _, "") Sample.ctx (JObj ∅) []
  = (Ok "No search results found.", []).
Proof.
  apply (summarize_search_results_no_results Sample.ctx (λ _, "") ∅ []).
  left. reflexivity.
Defined.

(** Two faults, then an answer. *)
Lemma run_agent_with_retry_three_attempts_witness :
  run_agent_with_retry Sample.runtime "hello" (deps Sample.ctx) None 3 []
  = (Ok (Some ({| data := "done" |}, [JStr "hello"; JStr "done"])),
     {| retry_events :=
          [] ++ [EvAgentRun "hello" []; EvSleep 1;
                 EvAgentRun "hello" []; EvSleep 1;
                 EvAgentRun "hello" []];
        message_history := [JStr "hello"; JStr "done"] |}).
Proof.
  apply (run_agent_with_retry_three_attempts Sample.runtime "hello"
           (deps Sample.ctx) None [] (RuntimeFault "attempt 0")
           (RuntimeFault "attempt 1") [] [] [] [JStr "hello"; JStr "done"]
           (Ok {| data := "done" |})); reflexivity.
Defined.

(** No retry allowed. *)
Lemma run_agent_with_retry_no_attempt_witness :
  run_agent_with_retry Sample.runtime "hello" (deps Sample.ctx) None 0 []
  = (Raise (Py.raise_value None),
     {| retry_events := []; message_history := [] |}).
Proof.
  apply (run_agent_with_retry_no_attempt Sample.runtime "hello"
           (deps Sample.ctx) None 0 []).
  lia.
Defined.

(** * The rest of the fetchers and of the tool surface *)

Section FetcherCoverage.

Variable net : request → http_outcome.
Variables (api_key query : string) (count offset : Z).
Variables (country search_lang ui_lang safesearch : string).

Local Abbreviation req :=
  (search_request api_key query count offset country search_lang ui_lang
     safesearch).

(** The envelope the two [except] clauses of [fetch_search_results] build
    from the exception they catch. *)
Definition caught_envelope (e : exn) : json :=
  match e with
  | RequestError msg => error_envelope ("Request error: " +:+ msg)
  | _ => error_envelope ("Unexpected error: " +:+ exn_str e)
  end.

(** [fetch_search_results] as a function of what the GET yields. *)
Lemma fetch_search_results_cases (log : list event) :
  fetch_search_results net api_key query count offset country search_lang
    ui_lang safesearch log
  = (Ok match net req with
        | Responded r =>
            if status_code r =? 200 then
              match body_json r with
              | Ok v => v
              | Raise e => caught_envelope e
              end
            else error_envelope ("Brave API error: "
                                 +:+ pretty (status_code r) +:+ " - "
                                 +:+ text r)
        | Faulted e => caught_envelope e
        end,
     log ++ [EvGet req]).
Proof.
  unfold fetch_search_results, search_request; run_monad.
  destruct (net _) as [r|[]]; simpl; try done.
  destruct (status_code r =? 200); simpl; [|done].
  by destruct (body_json r) as [v|[]].
Qed.

(** X1.  A 200 answer whose body parses is handed back as parsed, nothing
    added and nothing removed, after the one GET of the call. *)
Theorem fetch_search_results_success (r : response) (v : json)
    (log : list event) :
  net req = Responded r →
  status_code r = 200 →
  body_json r = Ok v →
  fetch_search_results net api_key query count offset country search_lang
    ui_lang safesearch log
  = (Ok v, log ++ [EvGet req]).
Proof.
  intros Hnet Hstatus Hbody.
  by rewrite fetch_search_results_cases, Hnet, Hstatus, Hbody.
Qed.

(** X2.  A 200 answer whose body does not parse is not raised to the
    caller: it comes back as an error envelope that quotes the parser's
    message, with an empty result list. *)
Theorem fetch_search_results_unparsable (r : response) (msg : string)
    (log : list event) :
  net req = Responded r →
  status_code r = 200 →
  body_json r = Raise (JSONDecodeError msg) →
  ∃ env,
    fetch_search_results net api_key query count offset country search_lang
      ui_lang safesearch log
    = (Ok env, log ++ [EvGet req])
    ∧ error_field env = Some (JStr ("Unexpected error: " +:+ msg))
    ∧ web_results env = Some [].
Proof.
  intros Hnet Hstatus Hbody.
  rewrite fetch_search_results_cases, Hnet, Hstatus, Hbody; simpl.
  eexists; split; [done|]. split.
  - unfold error_field, error_envelope, error_dict.
    by rewrite lookup_insert_eq.
  - unfold web_results, web_results_field, web_object, error_envelope,
      error_dict; simpl.
    rewrite lookup_insert_ne, lookup_insert_eq by done; simpl.
    by rewrite lookup_insert_eq.
Qed.

End FetcherCoverage.

Section PageCoverage.

Variable net : request → http_outcome.

(** [fetch_page_content] as a function of what the GET yields. *)
Lemma fetch_page_content_cases (api_key url : string) (log : list event) :
  fetch_page_content net api_key url log
  = (Ok match net (page_request url) with
        | Responded r => if status_code r =? 200 then text r else ""
        | Faulted _ => ""
        end,
     log ++ [EvGet (page_request url)]).
Proof.
  unfold fetch_page_content, page_request; run_monad.
  destruct (net _) as [r|[]]; simpl; try done.
  by destruct (status_code r =? 200).
Qed.

(** X3.  When the GET of the page fails (a status other than 200, or an
    exception) [fetch_page_content] returns the empty string and does not
    raise.  The one request it makes carries the two fixed headers and no
    parameter: the API key it is given is not sent. *)
Theorem fetch_page_content_failure (api_key url : string)
    (log : list event) :
  http_failed (net (page_request url)) →
  fetch_page_content net api_key url log
  = (Ok "", log ++ [EvGet (page_request url)]).
Proof.
  intros Hfail. rewrite fetch_page_content_cases.
  destruct (net _) as [r|e]; simpl in *; [|done].
  by destruct (Z.eqb_spec (status_code r) 200).
Qed.

End PageCoverage.

Section ToolCoverage.

Variable net : request → http_outcome.
Variable ctx : RunContext.

(** *** search_web *)

Section SearchWeb.

Variables (query : string) (count : Z).

(** The request [search_web] has [fetch_search_results] make: the count it
    is given, and the defaults for everything else. *)
Definition search_web_request : request :=
  search_request (brave_api_key (deps ctx)) query count 0 "US" "en" "en-US"
    "moderate".

(** The envelope [fetch_search_results] hands to [search_web]. *)
Definition search_web_fetched : json :=
  match (fetch_search_results net (brave_api_key (deps ctx)) query count 0
           "US" "en" "en-US" "moderate" []).1 with
  | Ok v => v
  | Raise _ => JNull
  end.

(** [search_web] as a function of the envelope it is handed. *)
Lemma search_web_cases (log : list event) :
  search_web net ctx query count log
  = (Ok match Py.contains search_web_fetched "error" with
        | Ok true =>
            match Py.getitem search_web_fetched "error" with
            | Ok err => error_dict err
            | Raise e => error_envelope (exn_str e)
            end
        | Ok false => search_web_fetched
        | Raise e => error_envelope (exn_str e)
        end,
     log ++ [EvGet search_web_request]).
Proof.
  unfold search_web. unfold try_except at 1. rewrite bind_run.
  rewrite fetch_search_results_run. unfold search_web_fetched.
  destruct (fetch_search_results_never_raises net (brave_api_key (deps ctx))
              query count 0 "US" "en" "en-US" "moderate" []) as [v ->].
  cbv beta iota. run_step.
  destruct (Py.contains v "error") as [[|]|e]; run_step; try done.
  by destruct (Py.getitem v "error"); run_step.
Qed.

Lemma error_dict_fields (err : json) :
  error_field (error_dict err) = Some err
  ∧ web_results (error_dict err) = Some [].
Proof.
  split.
  - unfold error_field, error_dict. by rewrite lookup_insert_eq.
  - unfold web_results, web_results_field, web_object, error_dict; simpl.
    rewrite lookup_insert_ne, lookup_insert_eq by done; simpl.
    by rewrite lookup_insert_eq.
Qed.

(** X4.  Whatever the network does, [search_web] returns and does not
    raise, after one GET with the count it was given, offset 0 and the
    default locale; and an envelope it returns with an [error] field has an
    empty [web.results], also when the endpoint answered 200 with a body
    that carries both an [error] and results. *)
Theorem search_web_error_has_no_results (log : list event) :
  ∃ env,
    search_web net ctx query count log
    = (Ok env, log ++ [EvGet search_web_request])
    ∧ (is_Some (error_field env) → web_results env = Some []).
Proof.
  rewrite search_web_cases. eexists; split; [done|].
  destruct (Py.contains search_web_fetched "error") as [[|]|e] eqn:Herr.
  - destruct (Py.getitem search_web_fetched "error"); intros _;
      apply error_dict_fields.
  - destruct search_web_fetched as [| | |s|xs|m]; simpl in *;
      try by intros [? ?].
    destruct (m !! "error"); [done|]. by intros [? ?].
  - intros _. apply error_dict_fields.
Qed.

(** X5.  A 200 answer whose body parses to a dictionary without [error] is
    returned as parsed. *)
Theorem search_web_success (r : response) (m : gmap string json)
    (log : list event) :
  net search_web_request = Responded r →
  status_code r = 200 →
  body_json r = Ok (JObj m) →
  m !! "error" = None →
  search_web net ctx query count log
  = (Ok (JObj m), log ++ [EvGet search_web_request]).
Proof.
  intros Hnet Hstatus Hbody Herr. rewrite search_web_cases.
  unfold search_web_fetched. rewrite fetch_search_results_cases.
  fold search_web_request. rewrite Hnet, Hstatus, Hbody; simpl.
  by rewrite Herr.
Qed.

(** X6.  When the GET fails, [search_web] returns the error envelope of
    [fetch_search_results] as it is: the message is kept. *)
Theorem search_web_failure (log : list event) :
  http_failed (net search_web_request) →
  search_web net ctx query count log
  = fetch_search_results net (brave_api_key (deps ctx)) query count 0 "US"
      "en" "en-US" "moderate" log.
Proof.
  intros Hfail. rewrite search_web_cases.
  destruct (fetch_search_results_http_failed net (brave_api_key (deps ctx))
              query count 0 "US" "en" "en-US" "moderate" [] Hfail)
    as (env & msg & Hrun & _).
  rewrite (fetch_search_results_run _ _ _ _ _ _ _ _ _ log).
  unfold search_web_fetched. rewrite Hrun; simpl.
  revert Hrun. rewrite fetch_search_results_cases.
  fold search_web_request.
  destruct (net search_web_request) as [r|e]; simpl in *.
  - destruct (Z.eqb_spec (status_code r) 200); [done|].
    by intros [= <-].
  - by destruct e; intros [= <-].
Qed.

End SearchWeb.

End ToolCoverage.

Section PageToolCoverage.

Variable net : request → http_outcome.
Variable ctx : RunContext.

(** X7.  Whatever the network does, [get_page_content] returns and does
    not raise, after one GET of the URL; and what it returns, when not the
    empty string, is the body of a 200 answer to that GET (one without the
    substring [error]). *)
Theorem get_page_content_sound (url : string) (log : list event) :
  ∃ content,
    get_page_content net ctx url log
    = (Ok content, log ++ [EvGet (page_request url)])
    ∧ (content ≠ "" →
       ∃ r, net (page_request url) = Responded r
            ∧ status_code r = 200
            ∧ text r = content
            ∧ Py.substring_of "error" content = false).
Proof.
  unfold get_page_content. unfold try_except at 1. rewrite bind_run.
  rewrite fetch_page_content_cases. cbv beta iota. run_step. simpl.
  destruct (net (page_request url)) as [r|e].
  - destruct (Z.eqb_spec (status_code r) 200) as [Hstatus|_].
    + destruct (Py.substring_of "error" (text r)) eqn:Herr; run_step.
      * by eexists.
      * eexists; split; [done|]. intros _. by exists r.
    + simpl. by eexists.
  - simpl. by eexists.
Qed.

Variable repr : json → string.

(** *** summarize_search_results *)

(** The loop of the summary touches nothing but its accumulator. *)
Lemma summarize_loop_log (i : Z) (web_results : list json)
    (summary : string) (log : list event) :
  (summarize_loop repr i web_results summary log).2 = log.
Proof.
  revert i summary.
  induction web_results as [|item items IH]; intros i summary; [done|].
  cbn [summarize_loop]. run_step.
  destruct (Py.get item "title" _); [|done]. run_step.
  destruct (Py.get item "url" _); [|done]. run_step.
  destruct (Py.get item "description" _); [|done]. run_step.
  apply IH.
Qed.

(** X8.  [summarize_search_results] returns a string for every input, and
    never raises; it makes no request and leaves the log as it is. *)
Theorem summarize_search_results_total (results : json)
    (log : list event) :
  ∃ summary,
    summarize_search_results repr ctx results log = (Ok summary, log).
Proof.
  unfold summarize_search_results. unfold try_except. run_step.
  destruct (Py.truthy results); simpl; run_step; [|by eexists].
  destruct (Py.get results "web" _) as [web|e]; run_step; [|by eexists].
  destruct (Py.get web "results" _) as [web_results|e]; run_step;
    [|by eexists].
  destruct (Py.truthy web_results); simpl; run_step; [|by eexists].
  destruct (Py.getitem results "web") as [web'|e]; run_step; [|by eexists].
  destruct (Py.getitem web' "results") as [rs|e]; run_step; [|by eexists].
  destruct (Py.iterate rs) as [items|e]; run_step; [|by eexists].
  pose proof (summarize_loop_log 1 items "## Search Results

" log) as Hlog.
  destruct (summarize_loop _ _ _ _ _) as [[s|e] log']; simpl in Hlog;
    subst log'; by eexists.
Qed.

End PageToolCoverage.

Lemma string_app_assoc (s1 s2 s3 : string) :
  (s1 +:+ s2) +:+ s3 = s1 +:+ (s2 +:+ s3).
Proof.
  induction s1 as [|a s1 IH]; [done|].
  change (String a ((s1 +:+ s2) +:+ s3) = String a (s1 +:+ (s2 +:+ s3))).
  by rewrite IH.
Qed.

Section SummaryCoverage.

Variable ctx : RunContext.
Variable repr : json → string.

(** What [result.get(key, default)] finds in a result that is a
    dictionary. *)
Definition field_or (item : gmap string json) (key default : string) : json :=
  match item !! key with Some v => v | None => JStr default end.

(** The three lines and the blank line that stand for one result. *)
Definition summary_block (i : Z) (item : gmap string json) : string :=
  ("### " +:+ pretty i +:+ ". "
   +:+ format_value repr (field_or item "title" "No title") +:+ "
")
  +:+ ("**URL**: " +:+ format_value repr (field_or item "url" "No URL") +:+ "
")
  +:+ ("**Description**: "
       +:+ format_value repr (field_or item "description" "No description")
       +:+ "

").

(** The blocks of the results, numbered from [i]. *)
Fixpoint summary_blocks (i : Z) (items : list (gmap string json)) : string :=
  match items with
  | [] => ""
  | item :: items => summary_block i item +:+ summary_blocks (i + 1) items
  end.

Lemma summarize_loop_blocks (i : Z) (items : list (gmap string json))
    (summary : string) (log : list event) :
  summarize_loop repr i (JObj <$> items) summary log
  = (Ok (summary +:+ summary_blocks i items), log).
Proof.
  revert i summary.
  induction items as [|item items IH]; intros i summary.
  { simpl. unfold ret. f_equal. f_equal.
    induction summary as [|a s IHs]; [done|].
    change (String a s = String a (s +:+ "")). by rewrite <- IHs. }
  cbn [fmap list_fmap summarize_loop Py.get]. run_step.
  rewrite IH. cbn [summary_blocks]. unfold summary_block, field_or.
  by rewrite !string_app_assoc.
Qed.

(** X9.  For an envelope whose [web.results] is a non-empty list of
    dictionaries, the summary is the heading followed by one block per
    result, in order and numbered from 1; a result without [title], [url]
    or [description] gets "No title", "No URL" or "No description" in its
    place. *)
Theorem summarize_search_results_blocks (m w : gmap string json)
    (items : list (gmap string json)) (log : list event) :
  m !! "web" = Some (JObj w) →
  w !! "results" = Some (JArr (JObj <$> items)) →
  items ≠ [] →
  summarize_search_results repr ctx (JObj m) log
  = (Ok ("## Search Results

" +:+ summary_blocks 1 items), log).
Proof.
  intros Hweb Hres Hitems.
  unfold summarize_search_results. unfold try_except. run_step.
  cbn [Py.truthy Py.get Py.getitem].
  destruct (bool_decide_reflect (m = ∅)) as [->|_]; [done|].
  destruct items as [|item items]; [done|].
  repeat (run_step;
          cbn [negb Py.truthy Py.get Py.getitem Py.iterate fmap list_fmap];
          rewrite ?Hweb, ?Hres).
  change (JObj item :: (JObj <$> items)) with (JObj <$> (item :: items)).
  by rewrite summarize_loop_blocks.
Qed.

Lemma summarize_loop_raises (i : Z) (xs : list json) (summary : string)
    (log : list event) :
  (∃ x, x ∈ xs ∧ ∀ d, x ≠ JObj d) →
  ∃ e, summarize_loop repr i xs summary log = (Raise e, log).
Proof.
  revert i summary. induction xs as [|y xs IH]; intros i summary [x [Hx Hnd]].
  { by apply elem_of_nil in Hx. }
  cbn [summarize_loop]. run_step.
  destruct y as [| | | | |d]; try (by eexists).
  cbn [Py.get]. run_step. apply IH. exists x. split; [|done].
  apply elem_of_cons in Hx as [->|Hx]; [|done]. by destruct (Hnd d).
Qed.

(** X10.  One result that is not a dictionary blanks the whole summary:
    when [web.results] is a list with such an item, the tool returns the
    empty string, whatever the other results are. *)
Theorem summarize_search_results_malformed_item (m w : gmap string json)
    (xs : list json) (log : list event) :
  m !! "web" = Some (JObj w) →
  w !! "results" = Some (JArr xs) →
  (∃ x, x ∈ xs ∧ ∀ d, x ≠ JObj d) →
  summarize_search_results repr ctx (JObj m) log = (Ok "", log).
Proof.
  intros Hweb Hres Hbad.
  unfold summarize_search_results. unfold try_except. run_step.
  cbn [Py.truthy Py.get Py.getitem].
  destruct (bool_decide_reflect (m = ∅)) as [->|_]; [done|].
  destruct xs as [|y xs].
  { destruct Hbad as [x [Hx _]]. by apply elem_of_nil in Hx. }
  repeat (run_step; cbn [negb Py.truthy Py.get Py.getitem Py.iterate];
          rewrite ?Hweb, ?Hres).
  by destruct (summarize_loop_raises 1 (y :: xs) "## Search Results

" log Hbad) as [e ->].
Qed.

End SummaryCoverage.

(** * More on the aggregator *)

Section AggregatorCoverage.

Variable net : request → http_outcome.
Variables (api_key query : string) (max_results : Z).
Variables (country search_lang ui_lang safesearch : string).

Local Abbreviation aggregate :=
  (search_with_pagination net api_key query max_results country search_lang
     ui_lang safesearch).
Local Abbreviation page k :=
  (page_value net api_key query country search_lang ui_lang safesearch k).
Local Abbreviation items_of k :=
  (gathered net api_key query country search_lang ui_lang safesearch k).
Local Abbreviation asked k :=
  (requests api_key query country search_lang ui_lang safesearch k).
Local Abbreviation stop_at k :=
  (stops net api_key query max_results country search_lang ui_lang
     safesearch k).
Local Abbreviation first_stop_in n :=
  (first_stop net api_key query max_results country search_lang ui_lang
     safesearch n).
Local Abbreviation top_of k :=
  (top_after net api_key query country search_lang ui_lang safesearch k).
Local Abbreviation web_of k :=
  (web_after net api_key query country search_lang ui_lang safesearch k).

Lemma error_field_error_envelope (msg : string) :
  error_field (error_envelope msg) = Some (JStr msg).
Proof.
  unfold error_field, error_envelope, error_dict.
  by rewrite lookup_insert_eq.
Qed.

(** X11.  The aggregator returns for every input and never raises; and
    the envelope it returns carries an [error] exactly when page 0 was
    requested ([max_results >= 1]) and failed.  A failure of a later page
    never shows in the result. *)
Theorem search_with_pagination_error_iff (log : list event) :
  ∃ env,
    (aggregate log).1 = Ok env
    ∧ (is_Some (error_field env)
       ↔ 1 ≤ max_results ∧ page_failed (page 0) = true).
Proof.
  rewrite search_with_pagination_spec.
  pose proof (num_pages_ceiling max_results) as Hceil.
  set (n := Z.to_nat (num_pages max_results)).
  assert (Hclean : ∀ k rs,
            error_field (merged (top_of k) (web_of k) rs) = None).
  { intros k rs. by rewrite error_field_merged, top_after_no_error. }
  destruct (first_stop_in n) as [k|] eqn:Hfirst; simpl.
  - apply first_stop_Some in Hfirst as (Hk & Hstop & Hbefore).
    assert (Hmax : 1 ≤ max_results) by lia.
    eexists; split; [done|]. unfold stopped_result.
    destruct k as [|k].
    + change (Z.of_nat 0) with 0. unfold page_failed.
      destruct (classify (page 0)) as [|e| |ys] eqn:Hclass.
      * split; [done|]. intros _. by apply classify_ErrorField_inv.
      * rewrite error_field_error_envelope. by split; [|eexists].
      * rewrite Hclean. split; [by intros [? ?]|by intros [_ ?]].
      * rewrite Hclean. split; [by intros [? ?]|by intros [_ ?]].
    + assert (page_failed (page 0) = false) as ->.
      { apply (stops_false net api_key query max_results country
                 search_lang ui_lang safesearch 0), Hbefore. lia. }
      destruct (classify (page (Z.of_nat (S k)))); rewrite Hclean;
        (split; [by intros [? ?]|by intros [_ ?]]).
  - rewrite first_stop_None in Hfirst.
    eexists; split; [done|]. rewrite Hclean.
    split; [by intros [? ?]|]. intros [Hmax Hfail].
    assert (stop_at 0 = false) as [Hok _]%stops_false
      by (apply Hfirst; lia).
    change (Z.of_nat 0) with 0 in Hok. congruence.
Qed.

(** X12.  Asked for at most ten items (one page), and served a page 0
    that is a dictionary without [error] whose [web.results] is a list, the
    aggregator returns that page with the list cut to [max_results] items:
    the page itself when the list is not longer than that. *)
Theorem search_with_pagination_single_page (m w : gmap string json)
    (xs : list json) (log : list event) :
  1 ≤ max_results ≤ 10 →
  page 0 = JObj m →
  m !! "error" = None →
  m !! "web" = Some (JObj w) →
  w !! "results" = Some (JArr xs) →
  aggregate log
  = (Ok (JObj (<["web" := JObj (<["results" :=
                                  JArr (take (Z.to_nat max_results) xs)]> w)]>
               m)),
     log ++ [EvGet (request_of_page api_key query country search_lang
                      ui_lang safesearch 0)])
  ∧ (Z.of_nat (length xs) ≤ max_results →
     aggregate log
     = (Ok (JObj m),
        log ++ [EvGet (request_of_page api_key query country search_lang
                         ui_lang safesearch 0)])).
Proof.
  intros Hmax Hpage Herr Hweb Hres.
  assert (Hclass : classify (page 0) = Merging xs).
  { rewrite Hpage. by apply classify_results_list with w. }
  assert (Hone : Z.to_nat (num_pages max_results) = 1%nat).
  { pose proof (num_pages_ceiling max_results). lia. }
  assert (Hshape : ∀ rs,
    merged (top_of 1) (web_of 1) rs
    = JObj (<["web" := JObj (<["results" := JArr rs]> w)]> m)).
  { intros rs. unfold top_after, web_after, page_top, page_web, merged.
    change (Z.of_nat 0) with 0. rewrite Hclass, Hpage. simpl.
    rewrite Hweb. simpl. by rewrite !insert_delete_eq. }
  assert (Hrun : aggregate log
    = (Ok (JObj (<["web" := JObj (<["results" :=
                                    JArr (take (Z.to_nat max_results) xs)]>
                                  w)]> m)),
       log ++ [EvGet (request_of_page api_key query country search_lang
                        ui_lang safesearch 0)])).
  { rewrite search_with_pagination_spec, Hone.
    assert (Hitems : items_of 1 = xs).
    { cbn [gathered]. unfold page_items. change (Z.of_nat 0) with 0.
      by rewrite Hclass. }
    destruct (first_stop_in 1) as [k|] eqn:Hfirst.
    - apply first_stop_Some in Hfirst as (Hk & Hstop & _).
      assert (k = 0%nat) as -> by lia.
      unfold stopped_result. change (Z.of_nat 0) with 0.
      rewrite Hclass, Hshape, Hitems, slice_to_nonneg by lia. done.
    - rewrite first_stop_None in Hfirst.
      assert (stop_at 0 = false) as [_ Hlen]%stops_false
        by (apply Hfirst; lia).
      rewrite Hitems in Hlen. rewrite Hshape, Hitems.
      rewrite take_ge by lia. done. }
  split; [done|]. intros Hlen. rewrite Hrun.
  rewrite take_ge by lia.
  by rewrite (insert_id w "results"), (insert_id m "web").
Qed.

Lemma gathered_prefix (j k : nat) :
  (j ≤ k)%nat → items_of j `prefix_of` items_of k.
Proof.
  induction 1 as [|k _ IH]; [done|].
  cbn [gathered]. by apply prefix_app_r.
Qed.

(** X13.  The items of an envelope returned without [error] are the first
    items of the pages requested, in page order: a prefix of what pages
    [0..n-1] hold, where [n <= num_pages] pages were requested.  Nothing is
    reordered, repeated or taken from a page that was not requested. *)
Theorem search_with_pagination_prefix (log : list event) :
  ∃ env (n : nat),
    aggregate log = (Ok env, log ++ asked n)
    ∧ (n ≤ Z.to_nat (num_pages max_results))%nat
    ∧ (error_field env = None →
       ∃ items, web_results env = Some items
                ∧ items `prefix_of` items_of n).
Proof.
  rewrite search_with_pagination_spec.
  pose proof (num_pages_ceiling max_results) as Hceil.
  set (N := Z.to_nat (num_pages max_results)).
  destruct (first_stop_in N) as [k|] eqn:Hfirst.
  - apply first_stop_Some in Hfirst as (Hk & Hstop & Hbefore).
    eexists _, (S k). split; [done|]. split; [lia|].
    unfold stopped_result. intros Herr.
    assert (Hcut : Py.slice_to (items_of (S k)) max_results
                   `prefix_of` items_of (S k)).
    { rewrite slice_to_nonneg by lia. apply prefix_take. }
    assert (Hprev : items_of k `prefix_of` items_of (S k))
      by (apply gathered_prefix; lia).
    destruct (classify (page (Z.of_nat k))) as [|e| |ys] eqn:Hclass.
    + destruct k as [|k].
      * apply classify_ErrorField_inv in Hclass as [? Hclass]. congruence.
      * rewrite web_results_merged. by eexists.
    + destruct k as [|k].
      * by rewrite error_field_error_envelope in Herr.
      * rewrite web_results_merged. by eexists.
    + rewrite web_results_merged. by eexists.
    + rewrite web_results_merged. by eexists.
  - eexists _, N. split; [done|]. split; [done|]. intros _.
    rewrite web_results_merged. by eexists.
Qed.

(** X14.  When none of the planned pages fails and all their items
    together stay below [max_results], every planned page is requested and
    the envelope returned, without [error], holds the items of all of
    them. *)
Theorem search_with_pagination_all_pages (log : list event) :
  1 ≤ max_results →
  (∀ j, (j < Z.to_nat (num_pages max_results))%nat →
        page_failed (page (Z.of_nat j)) = false) →
  Z.of_nat (length (items_of (Z.to_nat (num_pages max_results))))
  < max_results →
  ∃ env,
    aggregate log = (Ok env, log ++ asked (Z.to_nat (num_pages max_results)))
    ∧ web_results env = Some (items_of (Z.to_nat (num_pages max_results)))
    ∧ error_field env = None.
Proof.
  intros Hmax Hok Hcount. rewrite search_with_pagination_spec.
  set (N := Z.to_nat (num_pages max_results)) in *.
  assert (Hfirst : first_stop_in N = None).
  { apply first_stop_None. apply stops_before; [done|by right]. }
  rewrite Hfirst. eexists; split; [done|].
  by rewrite web_results_merged, error_field_merged, top_after_no_error.
Qed.

(** X15.  With [max_results <= 0] the aggregator makes no request and
    returns the envelope with an empty result list it started with. *)
Theorem search_with_pagination_nothing_asked (log : list event) :
  max_results ≤ 0 →
  aggregate log = (Ok fresh_all_results, log)
  ∧ web_results fresh_all_results = Some []
  ∧ error_field fresh_all_results = None.
Proof.
  intros Hmax. split; [by apply search_with_pagination_no_page|].
  split; reflexivity.
Qed.

End AggregatorCoverage.

(** * More on the retry loop *)

Section RetryCoverage.

Variable runtime :
  nat → string → BraveSearchDeps → list json → result run_result * list json.
Variables (user_input : string) (deps : BraveSearchDeps).

(** The history list after [k] more invocations of the runtime, the first
    of them being its invocation number [n0] on the list in state [h]. *)
Fixpoint history_after (n0 : nat) (h : list json) (k : nat) : list json :=
  match k with
  | O => h
  | S k => history_after (S n0) (runtime n0 user_input deps h).2 k
  end.

(** What invocation [k] of them answers. *)
Definition attempt (n0 : nat) (h : list json) (k : nat) : result run_result :=
  (runtime (n0 + k) user_input deps (history_after n0 h k)).1.

(** The events of [k] invocations each followed by the sleep. *)
Fixpoint failed_attempts (n0 : nat) (h : list json) (k : nat) : list event :=
  match k with
  | O => []
  | S k =>
      EvAgentRun user_input h :: EvSleep 1
      :: failed_attempts (S n0) (runtime n0 user_input deps h).2 k
  end.

Lemma attempt_S (n0 : nat) (h : list json) (k : nat) :
  attempt n0 h (S k)
  = attempt (S n0) (runtime n0 user_input deps h).2 k.
Proof. unfold attempt. simpl. by rewrite Nat.add_succ_r. Qed.

Lemma history_after_S (n0 : nat) (h : list json) (k : nat) :
  history_after n0 h (S k)
  = (runtime (n0 + k) user_input deps (history_after n0 h k)).2.
Proof.
  revert n0 h. induction k as [|k IH]; intros n0 h.
  { simpl. by rewrite Nat.add_0_r. }
  change (history_after n0 h (S (S k)))
    with (history_after (S n0) (runtime n0 user_input deps h).2 (S k)).
  rewrite IH. simpl. by rewrite Nat.add_succ_r.
Qed.

(** [k] invocations that raise, with retries left after each of them. *)
Lemma retry_loop_failures (max_retries : Z) (k fuel : nat) (retries : Z)
    (last_error : option exn) (log : list event) (h : list json) :
  (∀ i, (i < k)%nat → ∃ e, attempt (runs log) h i = Raise e) →
  retries + Z.of_nat k < max_retries →
  ∃ last_error',
    retry_loop runtime user_input deps max_retries (k + fuel) retries
      last_error {| retry_events := log; message_history := h |}
    = retry_loop runtime user_input deps max_retries fuel
        (retries + Z.of_nat k) last_error'
        {| retry_events := log ++ failed_attempts (runs log) h k;
           message_history := history_after (runs log) h k |}.
Proof.
  revert retries last_error log h.
  induction k as [|k IH]; intros retries last_error log h Hfail Hleft.
  { exists last_error. simpl. by rewrite Z.add_0_r, app_nil_r. }
  destruct (Hfail 0%nat) as [e He]; [lia|].
  unfold attempt in He. simpl in He. rewrite Nat.add_0_r in He.
  cbn [Nat.add retry_loop].
  rewrite (proj2 (Z.ltb_lt retries max_retries)) by lia.
  unfold try_except at 1. rewrite bind_run, agent_run_run.
  destruct (runtime (runs log) user_input deps h) as [r h1] eqn:Hrun.
  simpl in He. subst r. simpl fst. simpl snd. cbv beta iota.
  rewrite bind_run.
  rewrite (proj2 (Z.ltb_lt (retries + 1) max_retries)) by lia.
  unfold sleep at 1. cbv beta iota. simpl retry_events.
  simpl message_history.
  destruct (IH (retries + 1) (Some e)
              ((log ++ [EvAgentRun user_input h]) ++ [EvSleep 1]) h1)
    as [last_error' Hloop].
  - intros i Hi. destruct (Hfail (S i)) as [e' He']; [lia|].
    exists e'. rewrite attempt_S, Hrun in He'. simpl in He'.
    by rewrite !runs_snoc.
  - lia.
  - exists last_error'. rewrite Hloop, !runs_snoc. simpl.
    rewrite Hrun. simpl. rewrite <- !app_assoc. simpl.
    by replace (retries + 1 + Z.of_nat k) with (retries + Z.of_nat (S k))
      by lia.
Qed.

Lemma runs_failed_attempts (k : nat) (log : list event) (n0 : nat)
    (h : list json) :
  runs (log ++ failed_attempts n0 h k) = (runs log + k)%nat.
Proof.
  revert log n0 h. induction k as [|k IH]; intros log n0 h.
  { simpl. by rewrite app_nil_r, Nat.add_0_r. }
  change (runs (log ++ ([EvAgentRun user_input h] ++ [EvSleep 1]
                        ++ failed_attempts (S n0)
                             (runtime n0 user_input deps h).2 k))
          = (runs log + S k)%nat).
  rewrite !app_assoc, IH, !runs_snoc. simpl. lia.
Qed.

Local Abbreviation start message_history :=
  (match message_history with Some h => h | None => [] end).

(** X16.  When the runtime raises on its first [k] invocations, with
    [k < max_retries], and returns on the next one, the loop returns that
    result with the history list as the runtime left it.  It has invoked
    the runtime [k + 1] times, slept 1 after each of the [k] faults, and
    not after the success. *)
Theorem run_agent_with_retry_succeeds_after (k : nat) (max_retries : Z)
    (message_history : option (list json)) (log : list event)
    (result : run_result) :
  Z.of_nat k < max_retries →
  (∀ i, (i < k)%nat →
        ∃ e, attempt (runs log) (start message_history) i = Raise e) →
  attempt (runs log) (start message_history) k = Ok result →
  run_agent_with_retry runtime user_input deps message_history max_retries
    log
  = (Ok (Some (result,
               history_after (runs log) (start message_history) (S k))),
     {| retry_events :=
          log ++ failed_attempts (runs log) (start message_history) k
          ++ [EvAgentRun user_input
                (history_after (runs log) (start message_history) k)];
        message_history :=
          history_after (runs log) (start message_history) (S k) |}).
Proof.
  intros Hk Hfail Hok. unfold run_agent_with_retry.
  set (h := start message_history) in *.
  replace (S (Z.to_nat max_retries))
    with (k + S (Z.to_nat max_retries - k))%nat by lia.
  destruct (retry_loop_failures max_retries k (S (Z.to_nat max_retries - k))
              0 None log h Hfail) as [last_error ->]; [lia|].
  cbn [retry_loop].
  rewrite (proj2 (Z.ltb_lt (0 + Z.of_nat k) max_retries)) by lia.
  unfold try_except at 1. rewrite bind_run, agent_run_run.
  rewrite runs_failed_attempts. unfold attempt in Hok.
  rewrite history_after_S.
  destruct (runtime (runs log + k) user_input deps
              (history_after (runs log) h k)) as [r h'].
  simpl in Hok. subst r. simpl fst. simpl snd. cbv beta iota.
  run_step. unfold read_history. cbv beta iota. run_step.
  simpl. by rewrite <- app_assoc.
Qed.

(** X17.  When the runtime raises on each of its [max_retries >= 1]
    invocations, the loop raises what the last of them raised.  It has
    invoked the runtime exactly [max_retries] times and slept 1 between
    consecutive invocations, not after the last. *)
Theorem run_agent_with_retry_exhausted (k : nat) (max_retries : Z)
    (message_history : option (list json)) (log : list event) (e : exn) :
  max_retries = Z.of_nat (S k) →
  (∀ i, (i < k)%nat →
        ∃ e', attempt (runs log) (start message_history) i = Raise e') →
  attempt (runs log) (start message_history) k = Raise e →
  run_agent_with_retry runtime user_input deps message_history max_retries
    log
  = (Raise e,
     {| retry_events :=
          log ++ failed_attempts (runs log) (start message_history) k
          ++ [EvAgentRun user_input
                (history_after (runs log) (start message_history) k)];
        message_history :=
          history_after (runs log) (start message_history) (S k) |}).
Proof.
  intros Hmax Hfail Hlast. unfold run_agent_with_retry.
  set (h := start message_history) in *.
  replace (S (Z.to_nat max_retries)) with (k + 2)%nat by lia.
  destruct (retry_loop_failures max_retries k 2 0 None log h Hfail)
    as [last_error ->]; [lia|].
  cbn [retry_loop].
  rewrite (proj2 (Z.ltb_lt (0 + Z.of_nat k) max_retries)) by lia.
  unfold try_except at 1. rewrite bind_run, agent_run_run.
  rewrite runs_failed_attempts. unfold attempt in Hlast.
  rewrite history_after_S.
  destruct (runtime (runs log + k) user_input deps
              (history_after (runs log) h k)) as [r h'].
  simpl in Hlast. subst r. simpl fst. simpl snd. cbv beta iota.
  rewrite (proj2 (Z.ltb_ge (0 + Z.of_nat k + 1) max_retries)) by lia.
  run_step.
  rewrite ?(proj2 (Z.ltb_ge (0 + Z.of_nat k + 1) max_retries)) by lia.
  unfold raise. simpl. by rewrite <- app_assoc.
Qed.

Lemma runs_app (log1 log2 : list event) :
  runs (log1 ++ log2) = (runs log1 + runs log2)%nat.
Proof. unfold runs. by rewrite filter_app, length_app. Qed.

(** The loop only adds events, and among them at most as many
    invocations of the runtime as there are retries left. *)
Lemma retry_loop_bound (max_retries : Z) (fuel : nat) (retries : Z)
    (last_error : option exn) (f : retry_frame) :
  ∃ added,
    retry_events
      (retry_loop runtime user_input deps max_retries fuel retries
         last_error f).2
    = retry_events f ++ added
    ∧ (runs added ≤ Z.to_nat (max_retries - retries))%nat.
Proof.
  revert retries last_error f.
  induction fuel as [|fuel IH]; intros retries last_error f.
  { exists []. simpl. rewrite app_nil_r. split; [done|].
    change (runs []) with 0%nat. lia. }
  cbn [retry_loop].
  destruct (Z.ltb_spec retries max_retries) as [Hlt|Hge].
  - destruct f as [log h].
    unfold try_except at 1. rewrite bind_run, agent_run_run.
    destruct (runtime (runs log) user_input deps h) as [[res|e] h'];
      simpl fst; simpl snd; cbv beta iota.
    + run_step. unfold read_history. cbv beta iota. run_step. simpl.
      exists [EvAgentRun user_input h]. split; [done|].
      change (runs [EvAgentRun user_input h]) with 1%nat. lia.
    + rewrite bind_run.
      destruct (retries + 1 <? max_retries); cbv beta iota.
      * unfold sleep at 1. cbv beta iota. simpl retry_events.
        simpl message_history.
        destruct (IH (retries + 1) (Some e)
                    {| retry_events :=
                         (log ++ [EvAgentRun user_input h]) ++ [EvSleep 1];
                       message_history := h' |}) as (added & -> & Hruns).
        exists ([EvAgentRun user_input h; EvSleep 1] ++ added).
        split; [simpl; by rewrite <- !app_assoc|].
        rewrite runs_app.
        change (runs [EvAgentRun user_input h; EvSleep 1]) with 1%nat. lia.
      * rewrite ret_run. cbv beta iota.
        destruct (IH (retries + 1) (Some e)
                    {| retry_events := log ++ [EvAgentRun user_input h];
                       message_history := h' |}) as (added & -> & Hruns).
        exists ([EvAgentRun user_input h] ++ added).
        split; [simpl; by rewrite <- !app_assoc|].
        rewrite runs_app.
        change (runs [EvAgentRun user_input h]) with 1%nat. lia.
  - unfold raise. simpl. exists []. rewrite app_nil_r. split; [done|].
    change (runs []) with 0%nat. lia.
Qed.

(** X18.  Whatever the runtime does, the loop never invokes it more than
    [max_retries] times (never, when that is not positive), and it only
    appends to the log. *)
Theorem run_agent_with_retry_bound (message_history : option (list json))
    (max_retries : Z) (log : list event) :
  ∃ added,
    retry_events
      (run_agent_with_retry runtime user_input deps message_history
         max_retries log).2
    = log ++ added
    ∧ (runs added ≤ Z.to_nat max_retries)%nat.
Proof.
  unfold run_agent_with_retry.
  destruct (retry_loop_bound max_retries (S (Z.to_nat max_retries)) 0 None
              {| retry_events := log;
                 message_history := start message_history |})
    as (added & Hev & Hruns).
  exists added. split; [done|]. by rewrite Z.sub_0_r in Hruns.
Qed.

End RetryCoverage.

(** * main.py: the conversation *)

(** What the program writes to the terminal. *)
Inductive output :=
| Printed (line : string)      (* [print(line)] *)
| Prompted (prompt : string).  (* the prompt of [input(prompt)] *)

(** [EOFError], which [input] raises when the input has ended. *)
Definition EOFError : exn := RuntimeFault "EOF when reading a line".

(** [c.lower()] on an ASCII character; other bytes are left as they are.
    The comparisons below are with "exit", "quit", "bye" and "y": outside
    ASCII only the Kelvin sign lowers to an ASCII letter alone, a "k", so a
    string with a character outside ASCII equals none of the four after
    [lower()], here as in Python. *)
Definition lower_ascii (a : Ascii.ascii) : Ascii.ascii :=
  let n := Ascii.nat_of_ascii a in
  if (65 <=? n)%nat && (n <=? 90)%nat then Ascii.ascii_of_nat (n + 32)
  else a.

(** [s.lower()] *)
Fixpoint str_lower (s : string) : string :=
  match s with
  | EmptyString => EmptyString
  | String a s => String (lower_ascii a) (str_lower s)
  end.

(** [word in ["exit", "quit", "bye"]] *)
Definition is_exit_word (word : string) : bool :=
  existsb (String.eqb word) ["exit"; "quit"; "bye"].

Section Conversation.

Variable runtime :
  nat → string → BraveSearchDeps → list json → result run_result * list json.

(** The state of [main]: what has been written, the events of the agent,
    and the list object bound to [message_history]. *)
Record session := {
  stdout : list output;
  agent_events : list event;
  history : list json
}.

Definition print (line : string) : M session unit :=
  λ s, (Ok tt, {| stdout := stdout s ++ [Printed line];
                  agent_events := agent_events s;
                  history := history s |}).

Definition show_prompt (prompt : string) : M session unit :=
  λ s, (Ok tt, {| stdout := stdout s ++ [Prompted prompt];
                  agent_events := agent_events s;
                  history := history s |}).

(** [message_history = []] *)
Definition new_history : M session unit :=
  λ s, (Ok tt, {| stdout := stdout s; agent_events := agent_events s;
                  history := [] |}).

(** [await run_agent_with_retry(user_input, deps=deps,
    message_history=message_history)], with the default of three retries.
    The list the call returns is the one it was given, in the state the
    runtime left it; running out of fuel does not happen
    ([run_agent_with_retry_total]). *)
Definition await_retry (user_input : string) (deps : BraveSearchDeps)
  : M session run_result :=
  λ s, let '(r, f) := run_agent_with_retry runtime user_input deps
                        (Some (history s)) 3 (agent_events s) in
       (match r with
        | Ok (Some (result, _)) => Ok result
        | Ok None => Raise (RuntimeFault "out of fuel")
        | Raise e => Raise e
        end,
        {| stdout := stdout s; agent_events := retry_events f;
           history := message_history f |}).

(** The body of the [while True] loop for a line that is no exit word. *)
Definition turn (user_input : string) (deps : BraveSearchDeps)
  : M session unit :=
  try_except
    (let* result := await_retry user_input deps in
     print ("
Agent: " +:+ data result))
    (λ e,
       let* _ := print ("Error: " +:+ exn_str e) in
       print "Sorry, I encountered an error. Please try again with a different query.").

(** The [while True] loop, over the lines still to be read. *)
Fixpoint conversation (deps : BraveSearchDeps) (lines : list string)
  : M session unit :=
  match lines with
  | [] =>
      let* _ := show_prompt "You: " in
      raise EOFError
  | user_input :: lines =>
      let* _ := show_prompt "You: " in
      if is_exit_word (str_lower user_input) then print "Goodbye!"
      else
        let* _ := turn user_input deps in
        conversation deps lines
  end.

(** [main], given the value of [BRAVE_API_KEY] in the environment and the
    lines typed. *)
Definition main (brave_api_key : option string) (lines : list string)
  : M session unit :=
  match brave_api_key with
  | None | Some EmptyString =>
      let* _ := print "Error: BRAVE_API_KEY environment variable not set." in
      print "Please set your Brave API key in the .env file."
  | Some key =>
      let deps := {| brave_api_key := key |} in
      let* _ := print "Welcome to the Brave Search Agent!" in
      let* _ := print "Type 'exit' to quit." in
      let* _ := print "" in
      let* _ := new_history in
      conversation deps lines
  end.

End Conversation.

Section ConversationFacts.

Variable runtime :
  nat → string → BraveSearchDeps → list json → result run_result * list json.
Variable deps : BraveSearchDeps.

(** What a turn prints for the outcome of the retry loop. *)
Definition reply (r : result (option (run_result * list json)))
  : list output :=
  match r with
  | Ok (Some (result, _)) => [Printed ("
Agent: " +:+ data result)]
  | Ok None => []
  | Raise e =>
      [Printed ("Error: " +:+ exn_str e);
       Printed "Sorry, I encountered an error. Please try again with a different query."]
  end.

(** The session after a turn on [user_input]. *)
Definition after_turn (user_input : string) (s : session) : session :=
  let rf := run_agent_with_retry runtime user_input deps (Some (history s)) 3
              (agent_events s) in
  {| stdout := stdout s ++ reply rf.1;
     agent_events := retry_events rf.2;
     history := message_history rf.2 |}.

(** A turn never raises: it prints the answer or the error. *)
Lemma turn_run (user_input : string) (s : session) :
  turn runtime user_input deps s = (Ok tt, after_turn user_input s).
Proof.
  unfold turn, after_turn, try_except. rewrite bind_run.
  unfold await_retry.
  pose proof (run_agent_with_retry_total runtime user_input deps
                (Some (history s)) 3 (agent_events s)) as Htotal.
  destruct (run_agent_with_retry _ _ _ _ _ _) as [[[[result h]|]|e] rf];
    simpl in *; [done| |].
  - by destruct Htotal.
  - run_step. unfold print. simpl. by rewrite <- app_assoc.
Qed.

Definition prompted (s : session) : session :=
  {| stdout := stdout s ++ [Prompted "You: "];
     agent_events := agent_events s;
     history := history s |}.

(** A line that is no exit word costs one turn, and the conversation goes
    on with the next line. *)
Lemma conversation_turn (user_input : string) (lines : list string)
    (s : session) :
  is_exit_word (str_lower user_input) = false →
  conversation runtime deps (user_input :: lines) s
  = conversation runtime deps lines (after_turn user_input (prompted s)).
Proof.
  intros Hword. cbn [conversation]. rewrite bind_run.
  unfold show_prompt at 1. cbv beta iota. rewrite Hword, bind_run.
  by rewrite turn_run.
Qed.

(** The history the retry loop returns is the list it was given, in the
    state the runtime left it. *)
Lemma retry_loop_history (user_input : string) (max_retries : Z)
    (fuel : nat) (retries : Z) (last_error : option exn) (f f' : retry_frame)
    (result : run_result) (h : list json) :
  retry_loop runtime user_input deps max_retries fuel retries last_error f
  = (Ok (Some (result, h)), f') →
  h = message_history f'.
Proof.
  revert retries last_error f.
  induction fuel as [|fuel IH]; intros retries last_error f; [done|].
  cbn [retry_loop]. destruct (retries <? max_retries); [|done].
  destruct f as [log h0].
  unfold try_except at 1. rewrite bind_run, agent_run_run.
  destruct (runtime (runs log) user_input deps h0) as [[res|e] h1];
    simpl fst; simpl snd; cbv beta iota.
  - run_step. unfold read_history. cbv beta iota. run_step. simpl.
    by intros [= _ <- <-].
  - rewrite bind_run. destruct (retries + 1 <? max_retries).
    + unfold sleep at 1. cbv beta iota. apply IH.
    + rewrite ret_run. cbv beta iota. apply IH.
Qed.

(** X19.  A fault of the agent does not end the conversation.  When the
    retry loop gives up on a line that is no exit word, the fault is
    printed after "Error:", followed by an apology, and the next line is
    read; the history list goes on as the runtime left it. *)
Theorem conversation_survives_fault (user_input : string)
    (lines : list string) (s : session) (e : exn) (f : retry_frame) :
  is_exit_word (str_lower user_input) = false →
  run_agent_with_retry runtime user_input deps (Some (history s)) 3
    (agent_events s) = (Raise e, f) →
  conversation runtime deps (user_input :: lines) s
  = conversation runtime deps lines
      {| stdout :=
           stdout s
           ++ [Prompted "You: ";
               Printed ("Error: " +:+ exn_str e);
               Printed "Sorry, I encountered an error. Please try again with a different query."];
         agent_events := retry_events f;
         history := message_history f |}.
Proof.
  intros Hword Hrun. rewrite conversation_turn by done.
  unfold after_turn, prompted. simpl. rewrite Hrun. simpl.
  by rewrite <- app_assoc.
Qed.

(** X20.  When the agent answers a line that is no exit word, the answer
    is printed after "Agent:" and the next line is read with the history
    list the retry loop returned. *)
Theorem conversation_prints_answer (user_input : string)
    (lines : list string) (s : session) (result : run_result)
    (h : list json) (f : retry_frame) :
  is_exit_word (str_lower user_input) = false →
  run_agent_with_retry runtime user_input deps (Some (history s)) 3
    (agent_events s) = (Ok (Some (result, h)), f) →
  conversation runtime deps (user_input :: lines) s
  = conversation runtime deps lines
      {| stdout :=
           stdout s ++ [Prompted "You: "; Printed ("
Agent: " +:+ data result)];
         agent_events := retry_events f;
         history := h |}.
Proof.
  intros Hword Hrun. rewrite conversation_turn by done.
  unfold after_turn, prompted. simpl. rewrite Hrun. simpl.
  rewrite <- app_assoc. simpl.
  by rewrite (retry_loop_history _ _ _ _ _ _ _ _ _ Hrun).
Qed.

Lemma main_without_key_run (brave_api_key : option string)
    (lines : list string) (s : session) :
  brave_api_key = None ∨ brave_api_key = Some "" →
  main runtime brave_api_key lines s
  = (Ok tt,
     {| stdout :=
          stdout s
          ++ [Printed "Error: BRAVE_API_KEY environment variable not set.";
              Printed "Please set your Brave API key in the .env file."];
        agent_events := agent_events s;
        history := history s |}).
Proof.
  intros [->| ->]; unfold main; run_step; unfold print; simpl;
    by rewrite <- app_assoc.
Qed.

(** X21.  Without a Brave API key in the environment (unset, or empty)
    [main] prints its two lines of error and returns: it reads no line and
    never invokes the agent. *)
Theorem main_without_key (brave_api_key : option string)
    (lines : list string) (s : session) :
  brave_api_key = None ∨ brave_api_key = Some "" →
  main runtime brave_api_key lines s
  = (Ok tt,
     {| stdout :=
          stdout s
          ++ [Printed "Error: BRAVE_API_KEY environment variable not set.";
              Printed "Please set your Brave API key in the .env file."];
        agent_events := agent_events s;
        history := history s |}).
Proof. apply main_without_key_run. Qed.

(** The conversation ends on an exit word. *)
Lemma conversation_exit (user_input : string) (lines : list string)
    (s : session) :
  is_exit_word (str_lower user_input) = true →
  conversation runtime deps (user_input :: lines) s
  = (Ok tt,
     {| stdout := stdout s ++ [Prompted "You: "; Printed "Goodbye!"];
        agent_events := agent_events s;
        history := history s |}).
Proof.
  intros Hword. cbn [conversation]. rewrite bind_run.
  unfold show_prompt at 1. cbv beta iota. rewrite Hword.
  unfold print. simpl. by rewrite <- app_assoc.
Qed.

(** The conversation on no line at all: [input] raises. *)
Lemma conversation_eof (s : session) :
  conversation runtime deps [] s = (Raise EOFError, prompted s).
Proof. done. Qed.

(** How a conversation ends depends on the lines alone. *)
Lemma conversation_end (lines : list string) (s : session) :
  (conversation runtime deps lines s).1
  = if existsb (λ line, is_exit_word (str_lower line)) lines then Ok tt
    else Raise EOFError.
Proof.
  revert s. induction lines as [|line lines IH]; intros s; [done|].
  cbn [existsb]. destruct (is_exit_word (str_lower line)) eqn:Hword.
  - by rewrite conversation_exit.
  - rewrite conversation_turn by done. apply IH.
Qed.

End ConversationFacts.

Section SessionFacts.

Variable runtime :
  nat → string → BraveSearchDeps → list json → result run_result * list json.

(** With a key set, [main] greets and starts the conversation on an empty
    history. *)
Lemma main_with_key (key : string) (lines : list string) (s : session) :
  key ≠ "" →
  main runtime (Some key) lines s
  = conversation runtime {| brave_api_key := key |} lines
      {| stdout :=
           stdout s
           ++ [Printed "Welcome to the Brave Search Agent!";
               Printed "Type 'exit' to quit.";
               Printed ""];
         agent_events := agent_events s;
         history := [] |}.
Proof.
  intros Hkey. unfold main. destruct key as [|a key]; [done|].
  unfold print, new_history. run_step. simpl.
  by rewrite <- !app_assoc.
Qed.

(** X22.  When the first line typed is "exit", "quit" or "bye", in any
    mix of upper and lower case, [main] greets, prompts once, prints
    "Goodbye!" and returns: the agent is never invoked and the lines that
    follow are not read. *)
Theorem main_exit_word (key user_input : string) (lines : list string)
    (s : session) :
  key ≠ "" →
  is_exit_word (str_lower user_input) = true →
  main runtime (Some key) (user_input :: lines) s
  = (Ok tt,
     {| stdout :=
          stdout s
          ++ [Printed "Welcome to the Brave Search Agent!";
              Printed "Type 'exit' to quit.";
              Printed "";
              Prompted "You: ";
              Printed "Goodbye!"];
        agent_events := agent_events s;
        history := [] |}).
Proof.
  intros Hkey Hword. rewrite main_with_key by done.
  rewrite conversation_exit by done. simpl.
  by rewrite <- !app_assoc.
Qed.

(** X23.  With a key set, [main] returns exactly when one of the lines
    typed is an exit word; when the input ends without one, the
    [EOFError] of [input] leaves [main].  Nothing the agent does ends the
    conversation or raises out of it. *)
Theorem main_end (key : string) (lines : list string) (s : session) :
  key ≠ "" →
  (main runtime (Some key) lines s).1
  = if existsb (λ line, is_exit_word (str_lower line)) lines then Ok tt
    else Raise EOFError.
Proof.
  intros Hkey. rewrite main_with_key by done.
  apply conversation_end.
Qed.

(** The lines that get a turn: those before the first exit word. *)
Fixpoint turns (lines : list string) : nat :=
  match lines with
  | [] => 0
  | line :: lines =>
      if is_exit_word (str_lower line) then 0 else S (turns lines)
  end.

Lemma conversation_bound (deps : BraveSearchDeps) (lines : list string)
    (s : session) :
  ∃ added,
    agent_events (conversation runtime deps lines s).2
    = agent_events s ++ added
    ∧ (runs added ≤ 3 * turns lines)%nat.
Proof.
  revert s. induction lines as [|line lines IH]; intros s.
  { exists []. simpl. by rewrite app_nil_r. }
  cbn [turns]. destruct (is_exit_word (str_lower line)) eqn:Hword.
  - rewrite conversation_exit by done. exists []. simpl.
    by rewrite app_nil_r.
  - rewrite conversation_turn by done.
    destruct (IH (after_turn runtime deps line (prompted s)))
      as (added & -> & Hruns).
    unfold after_turn, run_agent_with_retry. cbn [agent_events].
    destruct (retry_loop_bound runtime line deps 3 (S (Z.to_nat 3)) 0 None
                {| retry_events := agent_events (prompted s);
                   message_history := history (prompted s) |})
      as (first & -> & Hfirst).
    simpl in *. exists (first ++ added). split; [by rewrite app_assoc|].
    rewrite runs_app. lia.
Qed.

(** X24.  In a whole session [main] invokes the runtime at most three
    times for each line typed before the first exit word, and not at all
    without a key; it only appends to the events of the agent. *)
Theorem main_invocation_bound (brave_api_key : option string)
    (lines : list string) (s : session) :
  ∃ added,
    agent_events (main runtime brave_api_key lines s).2
    = agent_events s ++ added
    ∧ (runs added ≤ 3 * turns lines)%nat.
Proof.
  destruct brave_api_key as [key|].
  - destruct (decide (key = "")) as [->|Hkey].
    + rewrite main_without_key_run by (by right).
      exists []. simpl. rewrite app_nil_r. split; [done|].
      change (runs []) with 0%nat. lia.
    + rewrite main_with_key by done.
      destruct (conversation_bound {| brave_api_key := key |} lines
                  {| stdout :=
                       stdout s
                       ++ [Printed "Welcome to the Brave Search Agent!";
                           Printed "Type 'exit' to quit.";
                           Printed ""];
                     agent_events := agent_events s;
                     history := [] |}) as (added & Hev & Hruns).
      by exists added.
  - rewrite main_without_key_run by (by left).
    exists []. simpl. rewrite app_nil_r. split; [done|].
    change (runs []) with 0%nat. lia.
Qed.

End SessionFacts.

(** * setup_env.py and run.py *)

(** What the two scripts see of the machine: the lines still to be typed,
    what has been written to the terminal, and the text of the [.env] file
    when there is one. *)
Record machine := {
  typed : list string;
  written : list output;
  env_text : option string
}.

(** [input(prompt)] *)
Definition input (prompt : string) : M machine string :=
  λ m, match typed m with
       | [] =>
           (Raise EOFError,
            {| typed := []; written := written m ++ [Prompted prompt];
               env_text := env_text m |})
       | line :: lines =>
           (Ok line,
            {| typed := lines; written := written m ++ [Prompted prompt];
               env_text := env_text m |})
       end.

Definition say (line : string) : M machine unit :=
  λ m, (Ok tt, {| typed := typed m; written := written m ++ [Printed line];
                  env_text := env_text m |}).

(** [os.path.exists(env_file)] *)
Definition env_file_exists : M machine bool :=
  λ m, (Ok (match env_text m with Some _ => true | None => false end), m).

Section Setup.

(** The path of the [.env] file, next to the scripts, and whether it can
    be opened for writing. *)
Variable env_file : string.
Variable writable : bool.

(** [with open(env_file, 'w') as f: f.write(...) ...]: opening empties
    the file, each write appends. *)
Definition write_env_file (chunks : list string) : M machine unit :=
  λ m, if writable then
         (Ok tt, {| typed := typed m; written := written m;
                    env_text := Some (foldl String.append "" chunks) |})
       else (Raise (RuntimeFault "Permission denied"), m).

Definition setup_env : M machine unit :=
  let* exists_already := env_file_exists in
  let* cancelled :=
    if exists_already then
      let* overwrite := input "A .env file already exists. Overwrite? (y/n): " in
      ret (negb (String.eqb (str_lower overwrite) "y"))
    else ret false in
  if cancelled then say "Setup cancelled."
  else
    let* openai_api_key := input "Enter your OpenAI API key: " in
    let* brave_api_key := input "Enter your Brave Search API key: " in
    let* answer := input "Enter the model name (default: gpt-4o-mini): " in
    let model_name :=
      if String.eqb answer "" then "gpt-4o-mini" else answer in
    let* _ := write_env_file
                ["# OpenAI API Key
";
                 "OPENAI_API_KEY=" +:+ openai_api_key +:+ "

";
                 "# Brave Search API Key
";
                 "BRAVE_API_KEY=" +:+ brave_api_key +:+ "

";
                 "# Model name
";
                 "MODEL_NAME=" +:+ model_name +:+ "
"] in
    let* _ := say (".env file created at " +:+ env_file) in
    say "You can now run the agent with 'python main.py'".

(** The environment as [os.getenv] reads it once [load_dotenv(env_file)]
    has read the file. *)
Variable getenv : string → option string.

Definition is_set (value : option string) : bool :=
  match value with
  | None | Some EmptyString => false
  | Some _ => true
  end.

Definition check_env : M machine bool :=
  let* found := env_file_exists in
  if negb found then
    let* _ := say "No .env file found. Running setup..." in
    let* _ := setup_env in
    ret false
  else if negb (is_set (getenv "OPENAI_API_KEY")) then
    let* _ := say "OPENAI_API_KEY not found in .env file." in
    ret false
  else if negb (is_set (getenv "BRAVE_API_KEY")) then
    let* _ := say "BRAVE_API_KEY not found in .env file." in
    ret false
  else ret true.

End Setup.

Section SetupFacts.

Variable env_file : string.

(** The text [setup_env] writes. *)
Definition env_contents (openai_api_key brave_api_key model_name : string)
  : string :=
  "# OpenAI API Key
OPENAI_API_KEY=" +:+ openai_api_key +:+ "

# Brave Search API Key
BRAVE_API_KEY=" +:+ brave_api_key +:+ "

# Model name
MODEL_NAME=" +:+ model_name +:+ "
".

Lemma written_chunks (openai_api_key brave_api_key model_name : string) :
  foldl String.append ""
    ["# OpenAI API Key
";
     "OPENAI_API_KEY=" +:+ openai_api_key +:+ "

";
     "# Brave Search API Key
";
     "BRAVE_API_KEY=" +:+ brave_api_key +:+ "

";
     "# Model name
";
     "MODEL_NAME=" +:+ model_name +:+ "
"]
  = env_contents openai_api_key brave_api_key model_name.
Proof.
  unfold env_contents. cbn [foldl].
  rewrite !string_app_assoc. reflexivity.
Qed.

Ltac run_setup :=
  unfold setup_env, check_env, env_file_exists, input, say, write_env_file;
  repeat (run_step; simpl).

(** X25.  When a [.env] file exists and the answer to the question is
    anything but "y" or "Y", [setup_env] prints "Setup cancelled." and
    stops: the file is left as it was and no key is asked for. *)
Theorem setup_env_cancelled (writable : bool) (m : machine) (old : string)
    (answer : string) (lines : list string) :
  env_text m = Some old →
  typed m = answer :: lines →
  str_lower answer ≠ "y" →
  setup_env env_file writable m
  = (Ok tt,
     {| typed := lines;
        written :=
          written m
          ++ [Prompted "A .env file already exists. Overwrite? (y/n): ";
              Printed "Setup cancelled."];
        env_text := Some old |}).
Proof.
  destruct m as [lines' out file]; simpl. intros -> -> Hanswer.
  run_setup. destruct (String.eqb_spec (str_lower answer) "y"); [done|].
  simpl. run_step. simpl. by rewrite <- app_assoc.
Qed.

(** X26.  Without a [.env] file, [setup_env] asks its three questions and
    writes the file with the two keys as typed and the model name, which
    is gpt-4o-mini when the third answer is empty. *)
Theorem setup_env_creates (m : machine)
    (openai_api_key brave_api_key answer : string) (lines : list string) :
  env_text m = None →
  typed m = openai_api_key :: brave_api_key :: answer :: lines →
  setup_env env_file true m
  = (Ok tt,
     {| typed := lines;
        written :=
          written m
          ++ [Prompted "Enter your OpenAI API key: ";
              Prompted "Enter your Brave Search API key: ";
              Prompted "Enter the model name (default: gpt-4o-mini): ";
              Printed (".env file created at " +:+ env_file);
              Printed "You can now run the agent with 'python main.py'"];
        env_text :=
          Some (env_contents openai_api_key brave_api_key
                  (if String.eqb answer "" then "gpt-4o-mini"
                   else answer)) |}).
Proof.
  destruct m as [lines' out file]; simpl. intros -> ->.
  run_setup. rewrite <- written_chunks, <- !app_assoc. done.
Qed.

(** X27.  With a [.env] file and the answer "y" or "Y", [setup_env]
    replaces the file: nothing of the old text is kept. *)
Theorem setup_env_overwrites (m : machine) (old : string)
    (confirm openai_api_key brave_api_key answer : string)
    (lines : list string) :
  env_text m = Some old →
  typed m = confirm :: openai_api_key :: brave_api_key :: answer :: lines →
  str_lower confirm = "y" →
  env_text (setup_env env_file true m).2
  = Some (env_contents openai_api_key brave_api_key
            (if String.eqb answer "" then "gpt-4o-mini" else answer))
  ∧ typed (setup_env env_file true m).2 = lines.
Proof.
  destruct m as [lines' out file]; simpl. intros -> -> Hconfirm.
  run_setup. rewrite Hconfirm. simpl. run_step. simpl. run_step. simpl.
  by rewrite <- written_chunks.
Qed.






End SetupFacts.

Section CheckFacts.

Variable env_file : string.
Variable writable : bool.
Variable getenv : string → option string.

(** X29.  Without a [.env] file [check_env] never answers [True], however
    the setup it runs goes: the script that calls it does not start the
    agent in the same run. *)
Theorem check_env_after_setup (m : machine) :
  env_text m = None →
  (check_env env_file writable getenv m).1 ≠ Ok true.
Proof.
  destruct m as [lines out file]; simpl. intros ->.
  unfold check_env, env_file_exists. run_step. simpl. run_step.
  unfold say at 1. cbv beta iota. rewrite bind_run.
  by destruct (setup_env env_file writable _) as [[[]|e] m'].
Qed.

(** X30.  With a [.env] file [check_env] answers [True] exactly when both
    keys are set to something not empty; it reads no line and leaves the
    file as it is. *)
Theorem check_env_with_file (m : machine) (text : string) :
  env_text m = Some text →
  (check_env env_file writable getenv m).1
  = Ok (is_set (getenv "OPENAI_API_KEY") && is_set (getenv "BRAVE_API_KEY"))
  ∧ typed (check_env env_file writable getenv m).2 = typed m
  ∧ env_text (check_env env_file writable getenv m).2 = env_text m.
Proof.
  destruct m as [lines out file]; simpl. intros ->.
  unfold check_env, env_file_exists, say. run_step. simpl.
  destruct (is_set (getenv "OPENAI_API_KEY")); simpl;
    [|by run_step].
  by destruct (is_set (getenv "BRAVE_API_KEY")); simpl; run_step.
Qed.

End CheckFacts.

(** * More concrete runs *)

Module Demo.

Definition key : string := brave_api_key (deps Sample.ctx).

(** A search endpoint that serves pages of two items for ever. *)
Definition net_small (r : request) : http_outcome :=
  Sample.answer 200 "" (Ok (Sample.page "small" ["a"; "b"])).

(** The dictionary of the first page of [Sample.net], and its [web]. *)
Definition first_web : gmap string json :=
  <["family_friendly" := JStr "first"]>
    (<["results" := JArr (Sample.item <$> Sample.titles "a")]> ∅).
Definition first_page : gmap string json :=
  <["type" := JStr "first"]> (<["web" := JObj first_web]> ∅).

(** A result with a title only. *)
Definition titled : gmap string json := {["title" := JStr "A"]}.

Definition fresh_session : session :=
  {| stdout := []; agent_events := []; history := [] |}.

(** A machine with a [.env] file, on which "n" and more is typed. *)
Definition configured : machine :=
  {| typed := ["n"; "sk-1"; "bsa-1"; ""]; written := [];
     env_text := Some "OPENAI_API_KEY=old" |}.

(** A machine without a [.env] file, on which three answers are typed. *)
Definition blank : machine :=
  {| typed := ["sk-1"; "bsa-1"; ""]; written := []; env_text := None |}.

(** A machine with a [.env] file, on which "Y" and three answers are
    typed. *)
Definition confirming : machine :=
  {| typed := ["Y"; "sk-2"; "bsa-2"; "gpt-4o"]; written := [];
     env_text := Some "OPENAI_API_KEY=old" |}.

(** An environment with both keys. *)
Definition getenv (name : string) : option string :=
  if String.eqb name "OPENAI_API_KEY" then Some "sk-1"
  else if String.eqb name "BRAVE_API_KEY" then Some "bsa-1"
  else None.

End Demo.

Lemma fetch_search_results_success_witness :
  fetch_search_results Sample.net "key" "rocq" 10 0 "US" "en" "en-US"
    "moderate" []
  = (Ok (JObj Demo.first_page),
     [] ++ [EvGet (search_request "key" "rocq" 10 0 "US" "en" "en-US"
                     "moderate")]).
Proof.
  apply (fetch_search_results_success Sample.net "key" "rocq" 10 0 "US" "en"
           "en-US" "moderate"
           {| status_code := 200; text := "";
              body_json := Ok (JObj Demo.first_page) |});
    reflexivity.
Defined.

Lemma fetch_search_results_unparsable_witness :
  ∃ env,
    fetch_search_results Sample.net_faq "key" "rocq" 10 0 "US" "en" "en-US"
      "moderate" []
    = (Ok env,
       [] ++ [EvGet (search_request "key" "rocq" 10 0 "US" "en" "en-US"
                       "moderate")])
    ∧ error_field env = Some (JStr ("Unexpected error: " +:+ "Expecting value"))
    ∧ web_results env = Some [].
Proof.
  apply (fetch_search_results_unparsable Sample.net_faq "key" "rocq" 10 0
           "US" "en" "en-US" "moderate"
           {| status_code := 200; text := "How to fix error 404";
              body_json := Raise (JSONDecodeError "Expecting value") |});
    reflexivity.
Defined.

Lemma fetch_page_content_failure_witness :
  fetch_page_content Sample.net_down "key" "https://example.org" []
  = (Ok "", [] ++ [EvGet (page_request "https://example.org")]).
Proof.
  apply (fetch_page_content_failure Sample.net_down "key"
           "https://example.org" []).
  simpl. exact I.
Defined.

Lemma search_web_success_witness :
  search_web Sample.net Sample.ctx "rocq" 10 []
  = (Ok (JObj Demo.first_page),
     [] ++ [EvGet (search_web_request Sample.ctx "rocq" 10)]).
Proof.
  apply (search_web_success Sample.net Sample.ctx "rocq" 10
           {| status_code := 200; text := "";
              body_json := Ok (JObj Demo.first_page) |});
    reflexivity.
Defined.

Lemma search_web_failure_witness :
  search_web Sample.net_down Sample.ctx "rocq" 10 []
  = fetch_search_results Sample.net_down Demo.key "rocq" 10 0 "US" "en"
      "en-US" "moderate" [].
Proof.
  apply (search_web_failure Sample.net_down Sample.ctx "rocq" 10 []).
  simpl. exact I.
Defined.

Lemma summarize_search_results_blocks_witness :
  summarize_search_results (λ _, "") Sample.ctx
    (JObj {["web" := JObj {["results" := JArr (JObj <$> [Demo.titled])]}]}) []
  = (Ok ("## Search Results

" +:+ summary_blocks (λ _, "") 1 [Demo.titled]), []).
Proof.
  apply (summarize_search_results_blocks Sample.ctx (λ _, "")
           {["web" := JObj {["results" := JArr (JObj <$> [Demo.titled])]}]}
           {["results" := JArr (JObj <$> [Demo.titled])]} [Demo.titled] []).
  - reflexivity.
  - reflexivity.
  - discriminate.
Defined.

Lemma summarize_search_results_malformed_item_witness :
  summarize_search_results (λ _, "") Sample.ctx
    (JObj {["web" := JObj {["results" := JArr [JObj Demo.titled; JNull]]}]})
    []
  = (Ok "", []).
Proof.
  apply (summarize_search_results_malformed_item Sample.ctx (λ _, "")
           {["web" := JObj {["results" := JArr [JObj Demo.titled; JNull]]}]}
           {["results" := JArr [JObj Demo.titled; JNull]]}
           [JObj Demo.titled; JNull] []).
  - reflexivity.
  - reflexivity.
  - exists JNull. split; [|discriminate].
    apply elem_of_cons. right. apply elem_of_cons. left. reflexivity.
Defined.

Lemma search_with_pagination_single_page_witness :
  search_with_pagination Sample.net "key" "rocq" 5 "US" "en" "en-US"
    "moderate" []
  = (Ok (JObj (<["web" := JObj (<["results" :=
                   JArr (take (Z.to_nat 5)
                           (Sample.item <$> Sample.titles "a"))]>
                 Demo.first_web)]> Demo.first_page)),
     [] ++ [EvGet (request_of_page "key" "rocq" "US" "en" "en-US"
                     "moderate" 0)])
  ∧ (Z.of_nat (length (Sample.item <$> Sample.titles "a")) ≤ 5 →
     search_with_pagination Sample.net "key" "rocq" 5 "US" "en" "en-US"
       "moderate" []
     = (Ok (JObj Demo.first_page),
        [] ++ [EvGet (request_of_page "key" "rocq" "US" "en" "en-US"
                        "moderate" 0)])).
Proof.
  apply (search_with_pagination_single_page Sample.net "key" "rocq" 5 "US"
           "en" "en-US" "moderate" Demo.first_page Demo.first_web
           (Sample.item <$> Sample.titles "a") []).
  - lia.
  - reflexivity.
  - reflexivity.
  - reflexivity.
  - reflexivity.
Defined.

Lemma search_with_pagination_all_pages_witness :
  ∃ env,
    search_with_pagination Demo.net_small "key" "rocq" 15 "US" "en" "en-US"
      "moderate" []
    = (Ok env,
       [] ++ requests "key" "rocq" "US" "en" "en-US" "moderate"
               (Z.to_nat (num_pages 15)))
    ∧ web_results env
      = Some (gathered Demo.net_small "key" "rocq" "US" "en" "en-US"
                "moderate" (Z.to_nat (num_pages 15)))
    ∧ error_field env = None.
Proof.
  apply (search_with_pagination_all_pages Demo.net_small "key" "rocq" 15
           "US" "en" "en-US" "moderate" []).
  - lia.
  - intros j _. vm_compute. reflexivity.
  - vm_compute. reflexivity.
Defined.

Lemma search_with_pagination_nothing_asked_witness :
  search_with_pagination Sample.net "key" "rocq" 0 "US" "en" "en-US"
    "moderate" []
  = (Ok fresh_all_results, [])
  ∧ web_results fresh_all_results = Some []
  ∧ error_field fresh_all_results = None.
Proof.
  apply (search_with_pagination_nothing_asked Sample.net "key" "rocq" 0 "US"
           "en" "en-US" "moderate" []).
  lia.
Defined.

Lemma run_agent_with_retry_succeeds_after_witness :
  run_agent_with_retry Sample.runtime "hello" (deps Sample.ctx) None 5 []
  = (Ok (Some ({| data := "done" |},
               history_after Sample.runtime "hello" (deps Sample.ctx)
                 (runs []) [] 3)),
     {| retry_events :=
          [] ++ failed_attempts Sample.runtime "hello" (deps Sample.ctx)
                  (runs []) [] 2
          ++ [EvAgentRun "hello"
                (history_after Sample.runtime "hello" (deps Sample.ctx)
                   (runs []) [] 2)];
        message_history :=
          history_after Sample.runtime "hello" (deps Sample.ctx) (runs [])
            [] 3 |}).
Proof.
  apply (run_agent_with_retry_succeeds_after Sample.runtime "hello"
           (deps Sample.ctx) 2 5 None [] {| data := "done" |}).
  - lia.
  - intros [|[|i]] Hi; [eexists; reflexivity..|lia].
  - reflexivity.
Defined.

Lemma run_agent_with_retry_exhausted_witness :
  run_agent_with_retry Sample.runtime_down "hello" (deps Sample.ctx) None 2
    []
  = (Raise (RuntimeFault "attempt 1"),
     {| retry_events :=
          [] ++ failed_attempts Sample.runtime_down "hello"
                  (deps Sample.ctx) (runs []) [] 1
          ++ [EvAgentRun "hello"
                (history_after Sample.runtime_down "hello" (deps Sample.ctx)
                   (runs []) [] 1)];
        message_history :=
          history_after Sample.runtime_down "hello" (deps Sample.ctx)
            (runs []) [] 2 |}).
Proof.
  apply (run_agent_with_retry_exhausted Sample.runtime_down "hello"
           (deps Sample.ctx) 1 2 None [] (RuntimeFault "attempt 1")).
  - lia.
  - intros [|i] Hi; [eexists; reflexivity|lia].
  - reflexivity.
Defined.

Lemma conversation_survives_fault_witness :
  conversation Sample.runtime_down (deps Sample.ctx) ["hello"; "bye"]
    Demo.fresh_session
  = conversation Sample.runtime_down (deps Sample.ctx) ["bye"]
      {| stdout :=
           [] ++ [Prompted "You: ";
                  Printed ("Error: " +:+ exn_str (RuntimeFault "attempt 2"));
                  Printed "Sorry, I encountered an error. Please try again with a different query."];
         agent_events :=
           retry_events
             {| retry_events := [EvAgentRun "hello" []; EvSleep 1;
                                 EvAgentRun "hello" []; EvSleep 1;
                                 EvAgentRun "hello" []];
                message_history := [] |};
         history :=
           message_history
             {| retry_events := [EvAgentRun "hello" []; EvSleep 1;
                                 EvAgentRun "hello" []; EvSleep 1;
                                 EvAgentRun "hello" []];
                message_history := [] |} |}.
Proof.
  apply (conversation_survives_fault Sample.runtime_down (deps Sample.ctx)
           "hello" ["bye"] Demo.fresh_session (RuntimeFault "attempt 2")
           {| retry_events := [EvAgentRun "hello" []; EvSleep 1;
                               EvAgentRun "hello" []; EvSleep 1;
                               EvAgentRun "hello" []];
              message_history := [] |}).
  - reflexivity.
  - vm_compute. reflexivity.
Defined.

Lemma conversation_prints_answer_witness :
  conversation Sample.runtime (deps Sample.ctx) ["hello"; "bye"]
    Demo.fresh_session
  = conversation Sample.runtime (deps Sample.ctx) ["bye"]
      {| stdout := [] ++ [Prompted "You: "; Printed ("
Agent: " +:+ data {| data := "done" |})];
         agent_events :=
           retry_events
             {| retry_events := [EvAgentRun "hello" []; EvSleep 1;
                                 EvAgentRun "hello" []; EvSleep 1;
                                 EvAgentRun "hello" []];
                message_history := [JStr "hello"; JStr "done"] |};
         history := [JStr "hello"; JStr "done"] |}.
Proof.
  apply (conversation_prints_answer Sample.runtime (deps Sample.ctx)
           "hello" ["bye"] Demo.fresh_session {| data := "done" |}
           [JStr "hello"; JStr "done"]
           {| retry_events := [EvAgentRun "hello" []; EvSleep 1;
                               EvAgentRun "hello" []; EvSleep 1;
                               EvAgentRun "hello" []];
              message_history := [JStr "hello"; JStr "done"] |}).
  - reflexivity.
  - vm_compute. reflexivity.
Defined.

Lemma main_without_key_witness :
  main Sample.runtime None ["hello"] Demo.fresh_session
  = (Ok tt,
     {| stdout :=
          [] ++ [Printed "Error: BRAVE_API_KEY environment variable not set.";
                 Printed "Please set your Brave API key in the .env file."];
        agent_events := [];
        history := [] |}).
Proof.
  apply (main_without_key Sample.runtime None ["hello"] Demo.fresh_session).
  left. reflexivity.
Defined.

Lemma main_exit_word_witness :
  main Sample.runtime (Some "key") ["Quit"; "hello"] Demo.fresh_session
  = (Ok tt,
     {| stdout :=
          [] ++ [Printed "Welcome to the Brave Search Agent!";
                 Printed "Type 'exit' to quit.";
                 Printed "";
                 Prompted "You: ";
                 Printed "Goodbye!"];
        agent_events := [];
        history := [] |}).
Proof.
  apply (main_exit_word Sample.runtime "key" "Quit" ["hello"]
           Demo.fresh_session).
  - discriminate.
  - reflexivity.
Defined.

Lemma main_end_witness :
  (main Sample.runtime_down (Some "key") ["hello"; "BYE"; "more"]
     Demo.fresh_session).1
  = if existsb (λ line, is_exit_word (str_lower line))
         ["hello"; "BYE"; "more"]
    then Ok tt else Raise EOFError.
Proof.
  apply (main_end Sample.runtime_down "key" ["hello"; "BYE"; "more"]
           Demo.fresh_session).
  discriminate.
Defined.

Lemma setup_env_cancelled_witness :
  setup_env "/agent/.env" true Demo.configured
  = (Ok tt,
     {| typed := ["sk-1"; "bsa-1"; ""];
        written :=
          [] ++ [Prompted "A .env file already exists. Overwrite? (y/n): ";
                 Printed "Setup cancelled."];
        env_text := Some "OPENAI_API_KEY=old" |}).
Proof.
  apply (setup_env_cancelled "/agent/.env" true Demo.configured
           "OPENAI_API_KEY=old" "n" ["sk-1"; "bsa-1"; ""]).
  - reflexivity.
  - reflexivity.
  - discriminate.
Defined.

Lemma setup_env_creates_witness :
  setup_env "/agent/.env" true Demo.blank
  = (Ok tt,
     {| typed := [];
        written :=
          [] ++ [Prompted "Enter your OpenAI API key: ";
                 Prompted "Enter your Brave Search API key: ";
                 Prompted "Enter the model name (default: gpt-4o-mini): ";
                 Printed (".env file created at " +:+ "/agent/.env");
                 Printed "You can now run the agent with 'python main.py'"];
        env_text :=
          Some (env_contents "sk-1" "bsa-1"
                  (if String.eqb "" "" then "gpt-4o-mini" else "")) |}).
Proof.
  apply (setup_env_creates "/agent/.env" Demo.blank "sk-1" "bsa-1" "" []).
  - reflexivity.
  - reflexivity.
Defined.

Lemma setup_env_overwrites_witness :
  env_text (setup_env "/agent/.env" true Demo.confirming).2
  = Some (env_contents "sk-2" "bsa-2"
            (if String.eqb "gpt-4o" "" then "gpt-4o-mini" else "gpt-4o"))
  ∧ typed (setup_env "/agent/.env" true Demo.confirming).2 = [].
Proof.
  apply (setup_env_overwrites "/agent/.env" Demo.confirming
           "OPENAI_API_KEY=old" "Y" "sk-2" "bsa-2" "gpt-4o" []).
  - reflexivity.
  - reflexivity.
  - reflexivity.
Defined.

Lemma check_env_after_setup_witness :
  (check_env "/agent/.env" true Demo.getenv Demo.blank).1 ≠ Ok true.
Proof.
  apply (check_env_after_setup "/agent/.env" true Demo.getenv Demo.blank).
  reflexivity.
Defined.

Lemma check_env_with_file_witness :
  (check_env "/agent/.env" true Demo.getenv Demo.configured).1
  = Ok (is_set (Demo.getenv "OPENAI_API_KEY")
        && is_set (Demo.getenv "BRAVE_API_KEY"))
  ∧ typed (check_env "/agent/.env" true Demo.getenv Demo.configured).2
    = typed Demo.configured
  ∧ env_text (check_env "/agent/.env" true Demo.getenv Demo.configured).2
    = env_text Demo.configured.
Proof.
  apply (check_env_with_file "/agent/.env" true Demo.getenv Demo.configured
           "OPENAI_API_KEY=old").
  reflexivity.
Defined.
